(** * Voyage creation: client form, selection widgets and create endpoint

  A shallow embedding of the voyage-creation core of the application:
  - [src/components/createVoyageForm.tsx]: the zod schema [voyageSchema],
    the selection state, [handlePortOfLoadingChange], [onSubmit] and
    [createVoyageMutation];
  - [src/components/multiSelect.tsx]: [handleSelect], [handleUnselect]
    and [handleKeyDown];
  - [src/components/dropdown.tsx]: the auto-select effect of [Dropdown];
  - [src/pages/api/voyage/create.ts]: the request [handler].

  The JavaScript runtime and the libraries the code calls (Date, zod,
  the zod resolver of react-hook-form, fetch, prisma) are not part of the
  repository.  Date and the persistence layer are interfaces (type
  classes) with one executable instance each; zod and the resolver are
  modelled operationally in the small part the schema uses. *)

From Stdlib Require Import ZArith Lia Ascii String.
From stdpp Require Import base option list strings gmap.

Set Warnings "-register-all".
Local Open Scope Z_scope.
Local Open Scope string_scope.
Local Open Scope list_scope.

(** ** JavaScript values and dates *)

Module Js.

(** The JSON-shaped values a request body can hold. *)
Inductive JsValue :=
| JUndefined
| JNull
| JBool (b : bool)
| JNumber (n : Z)
| JString (s : string)
| JArray (l : list JsValue)
| JObject (fields : list (string * JsValue)).

(** [o.k] on an object: the first field named [k], else [undefined]. *)
Fixpoint getField (fields : list (string * JsValue)) (k : string) : JsValue :=
  match fields with
  | [] => JUndefined
  | (k', v) :: rest => if String.eqb k' k then v else getField rest k
  end.

(** [v.k] on a value that is not [null] or [undefined].  Primitives and
    arrays have none of the field names used here. *)
Definition getProp (v : JsValue) (k : string) : JsValue :=
  match v with
  | JObject fields => getField fields k
  | _ => JUndefined
  end.

(** A [Date] is its time value: milliseconds since the epoch, or the NaN
    of an Invalid Date ([None]). *)
Definition Date := option Z.

(** What the code uses of the built-in Date: [new Date(s)] on a string
    and the digits of [toISOString] for a finite time value. *)
Class JsDate := {
  Date_new : string -> Date;
  isoOfTime : Z -> string;
  Date_new_empty : Date_new "" = None
}.

(** [a > b] on two dates compares the time values; every comparison
    with NaN is false. *)
Definition Date_gt (a b : Date) : bool :=
  match a, b with
  | Some ta, Some tb => (tb <? ta)%Z
  | _, _ => false
  end.

(** [d.toISOString()]: throws a RangeError ([None]) on an Invalid Date. *)
Definition toISOString `{JsDate} (d : Date) : option string :=
  match d with
  | Some t => Some (isoOfTime t)
  | None => None
  end.

End Js.

(** ** zod, as far as [voyageSchema] uses it *)

Module Zod.

Record ZodIssue := {
  code : string;
  path : list string;
  message : string
}.

(** The result of a synchronous parser: a clean value, a value with
    issues, or no value at all. *)
Inductive SyncParseReturn (A : Type) :=
| OK (v : A)
| DIRTY (v : A)
| INVALID.
Arguments OK {A} _.
Arguments DIRTY {A} _.
Arguments INVALID {A}.

(** A parser adds its issues to the context; they are kept in the order
    in which they are added. *)
Definition Parse (A : Type) : Type := SyncParseReturn A * list ZodIssue.

Definition addIssue (c : string) (p : list string) (msg : string) : list ZodIssue :=
  [ {| code := c; path := p; message := msg |} ].

(** [z.string().min(n, msg)]: an input that is not a string ([None],
    the [undefined] of a field never set) is an [invalid_type] issue and
    no value; a string that is too short is a [too_small] issue on a
    dirty value. *)
Definition string_min (n : nat) (msg : string) (p : list string)
    (input : option string) : Parse string :=
  match input with
  | None => (INVALID, addIssue "invalid_type" p "Required")
  | Some s =>
      if (String.length s <? n)%nat
      then (DIRTY s, addIssue "too_small" p msg)
      else (OK s, [])
  end.

(** [z.array(z.string()).nonempty(msg)]: the length check of the array;
    its elements are strings and add nothing. *)
Definition array_nonempty (msg : string) (p : list string)
    (input : option (list string)) : Parse (list string) :=
  match input with
  | None => (INVALID, addIssue "invalid_type" p "Required")
  | Some l =>
      if (length l <? 1)%nat
      then (DIRTY l, addIssue "too_small" p msg)
      else (OK l, [])
  end.

(** [z.object({...})] parses every field of the shape, in the order of
    the shape, then merges: no value if some field has none, dirty if
    some field is dirty.  [field] adds one parsed field to an object
    under construction. *)
Definition field {A B : Type} (acc : Parse (A -> B)) (r : Parse A) : Parse B :=
  (match acc.1, r.1 with
   | INVALID, _ | _, INVALID => INVALID
   | OK f, OK a => OK (f a)
   | OK f, DIRTY a | DIRTY f, OK a | DIRTY f, DIRTY a => DIRTY (f a)
   end,
   acc.2 ++ r.2).

(** [schema.refine(check, {message, path})]: an inner result without
    value is returned as it is; otherwise the check runs on the inner
    value, also when that is dirty, and a failed check adds a [custom]
    issue at the given path. *)
Definition refine {A : Type} (inner : Parse A) (check : A -> bool)
    (msg : string) (p : list string) : Parse A :=
  match inner.1 with
  | INVALID => inner
  | OK v | DIRTY v =>
      if check v then inner
      else (DIRTY v, inner.2 ++ addIssue "custom" p msg)
  end.

(** [schema.safeParse(input)]. *)
Inductive SafeParseReturn (A : Type) :=
| success (data : A)
| failure (error : list ZodIssue).
Arguments success {A} _.
Arguments failure {A} _.

Definition handleResult {A : Type} (r : Parse A) : SafeParseReturn A :=
  match r.1 with
  | OK v => success v
  | _ => failure r.2
  end.

End Zod.

(** ** The unit-type multi-select ([multiSelect.tsx]) *)

Module MultiSelect.

Record UnitType := { value : string; label : string }.

(** A functional state update, as passed to [setSelected]. *)
Definition SetStateAction (A : Type) : Type := A -> A.

(** The local state of the widget that the handlers write. *)
Record State := { inputValue : string; isOpen : bool }.

Definition handleUnselect (unitType : UnitType) : SetStateAction (list UnitType) :=
  fun prev => filter (fun s => value s <> value unitType) prev.

(** [selected] is the list of the current render; the update itself is
    applied to the state at the time of the update.  No update is issued
    when [find] returns an entry. *)
Definition handleSelect (selected : list UnitType) (unitType : UnitType)
    (st : State) : option (SetStateAction (list UnitType)) * State :=
  match List.find (fun s => String.eqb (value s) (value unitType)) selected with
  | Some _ => (None, st)
  | None => (Some (fun prev => prev ++ [unitType]),
             {| inputValue := ""; isOpen := true |})
  end.

(** [newSelected.pop()] on a copy: the last entry is dropped, and an
    empty array stays empty. *)
Definition pop (prev : list UnitType) : list UnitType := removelast prev.

(** [input] is the value of the search input when the ref is attached.
    The Escape key only blurs the input and updates nothing. *)
Definition handleKeyDown (key : string) (input : option string)
    : option (SetStateAction (list UnitType)) :=
  match input with
  | Some v =>
      if String.eqb key "Delete" || String.eqb key "Backspace"
      then if String.eqb v "" then Some pop else None
      else None
  | None => None
  end.

(** The three user events of the widget and the list after the parent
    has applied the update, the render being up to date with the state. *)
Inductive Event :=
| Select (unitType : UnitType)
| Unselect (unitType : UnitType)
| KeyDown (key : string) (input : option string).

Definition apply (upd : option (SetStateAction (list UnitType)))
    (selected : list UnitType) : list UnitType :=
  match upd with
  | Some f => f selected
  | None => selected
  end.

Definition step (st : State) (selected : list UnitType) (e : Event) : list UnitType :=
  match e with
  | Select u => apply (handleSelect selected u st).1 selected
  | Unselect u => apply (Some (handleUnselect u)) selected
  | KeyDown key input => apply (handleKeyDown key input) selected
  end.

(** A session: events, each with the local state of its render. *)
Definition run (selected : list UnitType) (events : list (State * Event))
    : list UnitType :=
  foldl (fun sel '(st, e) => step st sel e) selected events.

(** No two entries carry the same identifier. *)
Definition duplicateFree (selected : list UnitType) : Prop :=
  NoDup (value <$> selected).

End MultiSelect.

(** ** The dropdown ([dropdown.tsx]) *)

Module Dropdown.

Record Item := { value : string; label : string }.

(** The effect of [Dropdown]: with nothing selected ([!selectedItem]
    holds of the empty string) and at least one item, the first item is
    selected.  [None]: [setSelectedItem] is not called. *)
Definition autoSelect (items : list Item) (selectedItem : string) : option string :=
  match items with
  | first :: _ => if String.eqb selectedItem "" then Some (value first) else None
  | [] => None
  end.

End Dropdown.

(** ** The validation schema ([createVoyageForm.tsx], [voyageSchema]) *)

Module Schema.
Import Js Zod.

(** The six fields of the form.  [VoyageFormData] is the type inferred
    from the schema; [FieldValues] is what the form library holds, where
    a field never set is [undefined] ([None]). *)
Record VoyageFields (S L : Type) := {
  departure : S;
  arrival : S;
  portOfLoading : S;
  portOfDischarge : S;
  vessel : S;
  unitTypes : L
}.
Arguments Build_VoyageFields {S L} _ _ _ _ _ _.
Arguments departure {S L} _.
Arguments arrival {S L} _.
Arguments portOfLoading {S L} _.
Arguments portOfDischarge {S L} _.
Arguments vessel {S L} _.
Arguments unitTypes {S L} _.

Definition VoyageFormData : Type := VoyageFields string (list string).
Definition FieldValues : Type := VoyageFields (option string) (option (list string)).

(** A typed draft, seen as field values. *)
Definition fieldValues (d : VoyageFormData) : FieldValues :=
  {| departure := Some (departure d);
     arrival := Some (arrival d);
     portOfLoading := Some (portOfLoading d);
     portOfDischarge := Some (portOfDischarge d);
     vessel := Some (vessel d);
     unitTypes := Some (unitTypes d) |}.

Local Infix "<&>" := field (at level 50, left associativity).

(** The [z.object({...})] of the schema. *)
Definition voyageObject (input : FieldValues) : Parse VoyageFormData :=
  (OK (@Build_VoyageFields string (list string)), [])
    <&> string_min 1 "Departure is required" ["departure"] (departure input)
    <&> string_min 1 "Arrival is required" ["arrival"] (arrival input)
    <&> string_min 1 "Port of loading is required" ["portOfLoading"] (portOfLoading input)
    <&> string_min 1 "Port of discharge is required" ["portOfDischarge"] (portOfDischarge input)
    <&> string_min 1 "Vessel is required" ["vessel"] (vessel input)
    <&> array_nonempty "At least one unit type is required" ["unitTypes"] (unitTypes input).

Definition arrivalAfterDeparture `{JsDate} (data : VoyageFormData) : bool :=
  Date_gt (Date_new (arrival data)) (Date_new (departure data)).

Definition voyageSchema `{JsDate} (input : FieldValues) : Parse VoyageFormData :=
  refine (voyageObject input) arrivalAfterDeparture
    "Arrival date must be after departure date" ["arrival"].

Definition safeParse `{JsDate} (input : FieldValues) : SafeParseReturn VoyageFormData :=
  handleResult (voyageSchema input).

(** *** The rules as the specification lists them

    Every scalar field that is the empty string carries its own
    required-message, an empty list of unit types carries its own, and
    an arrival that is not after the departure carries the ordering
    message on the arrival field. *)

Definition required (s : string) (name msg : string) : list ZodIssue :=
  if decide (s = "") then addIssue "too_small" [name] msg else [].

Definition atLeastOne (l : list string) (name msg : string) : list ZodIssue :=
  if decide (l = []) then addIssue "too_small" [name] msg else [].

Definition ordering `{JsDate} (d : VoyageFormData) : list ZodIssue :=
  if arrivalAfterDeparture d then []
  else addIssue "custom" ["arrival"] "Arrival date must be after departure date".

Definition ruleIssues `{JsDate} (d : VoyageFormData) : list ZodIssue :=
  required (departure d) "departure" "Departure is required"
  ++ required (arrival d) "arrival" "Arrival is required"
  ++ required (portOfLoading d) "portOfLoading" "Port of loading is required"
  ++ required (portOfDischarge d) "portOfDischarge" "Port of discharge is required"
  ++ required (vessel d) "vessel" "Vessel is required"
  ++ atLeastOne (unitTypes d) "unitTypes" "At least one unit type is required"
  ++ ordering d.

(** The six names that the schema files issues under. *)
Definition fieldNames : list string :=
  ["departure"; "arrival"; "portOfLoading"; "portOfDischarge"; "vessel"; "unitTypes"].

(** *** The zod resolver of the form library *)

Record FieldError := { type : string; message : string }.

#[global] Instance FieldError_eq_dec : EqDecision FieldError.
Proof. solve_decision. Defined.

(** The key of the errors map that an issue is filed under: its path
    joined with dots.  A form-level error would sit under the empty path. *)
Definition filedUnder (k : string) (i : ZodIssue) : bool :=
  String.eqb (String.concat "." (Zod.path i)) k.

Definition fieldError (i : ZodIssue) : FieldError :=
  {| type := Zod.code i; message := Zod.message i |}.

(** Every issue becomes the error of its key; a key that already has an
    error keeps it. *)
Fixpoint parseErrorSchema (zodErrors : list ZodIssue)
    (errors : gmap string FieldError) : gmap string FieldError :=
  match zodErrors with
  | [] => errors
  | error :: rest =>
      let _path := String.concat "." (Zod.path error) in
      parseErrorSchema rest
        (match errors !! _path with
         | Some _ => errors
         | None => <[_path := fieldError error]> errors
         end)
  end.

(** The resolver answers [{errors: {}, values: data}] or
    [{values: {}, errors}]. *)
Record ResolverResult := {
  values : option VoyageFormData;
  errors : gmap string FieldError
}.

Definition zodResolver `{JsDate} (input : FieldValues) : ResolverResult :=
  match safeParse input with
  | success data => {| values := Some data; errors := ∅ |}
  | failure error => {| values := None; errors := parseErrorSchema error ∅ |}
  end.

End Schema.

(** ** The creation form ([createVoyageForm.tsx], [CreateVoyageForm]) *)

Module CreateVoyageForm.
Import Js.

(** The four [useState] cells, and of [useForm] the field values and
    [formState.errors]. *)
Record State := {
  selectedVessel : string;
  selectedUnitTypes : list MultiSelect.UnitType;
  portOfLoading : string;
  portOfDischarge : string;
  formValues : Schema.FieldValues;
  errors : gmap string Schema.FieldError
}.

Definition initialState : State :=
  {| selectedVessel := "";
     selectedUnitTypes := [];
     portOfLoading := "";
     portOfDischarge := "";
     formValues := Schema.Build_VoyageFields None None None None None None;
     errors := ∅ |}.

(** *** State setters *)

Definition setSelectedVessel (v : string) (st : State) : State :=
  {| selectedVessel := v;
     selectedUnitTypes := selectedUnitTypes st;
     portOfLoading := portOfLoading st;
     portOfDischarge := portOfDischarge st;
     formValues := formValues st;
     errors := errors st |}.

Definition setSelectedUnitTypes (l : list MultiSelect.UnitType) (st : State) : State :=
  {| selectedVessel := selectedVessel st;
     selectedUnitTypes := l;
     portOfLoading := portOfLoading st;
     portOfDischarge := portOfDischarge st;
     formValues := formValues st;
     errors := errors st |}.

Definition setPortOfLoading (p : string) (st : State) : State :=
  {| selectedVessel := selectedVessel st;
     selectedUnitTypes := selectedUnitTypes st;
     portOfLoading := p;
     portOfDischarge := portOfDischarge st;
     formValues := formValues st;
     errors := errors st |}.

Definition setPortOfDischarge (p : string) (st : State) : State :=
  {| selectedVessel := selectedVessel st;
     selectedUnitTypes := selectedUnitTypes st;
     portOfLoading := portOfLoading st;
     portOfDischarge := p;
     formValues := formValues st;
     errors := errors st |}.

Definition setFormValues (f : Schema.FieldValues -> Schema.FieldValues)
    (st : State) : State :=
  {| selectedVessel := selectedVessel st;
     selectedUnitTypes := selectedUnitTypes st;
     portOfLoading := portOfLoading st;
     portOfDischarge := portOfDischarge st;
     formValues := f (formValues st);
     errors := errors st |}.

Definition setErrors (e : gmap string Schema.FieldError) (st : State) : State :=
  {| selectedVessel := selectedVessel st;
     selectedUnitTypes := selectedUnitTypes st;
     portOfLoading := portOfLoading st;
     portOfDischarge := portOfDischarge st;
     formValues := formValues st;
     errors := e |}.

(** [setValue(name, value)] of the form library on a string field. *)
Definition setField (name : string) (v : string)
    (fv : Schema.FieldValues) : Schema.FieldValues :=
  let pick n old := if String.eqb name n then Some v else old in
  {| Schema.departure := pick "departure" (Schema.departure fv);
     Schema.arrival := pick "arrival" (Schema.arrival fv);
     Schema.portOfLoading := pick "portOfLoading" (Schema.portOfLoading fv);
     Schema.portOfDischarge := pick "portOfDischarge" (Schema.portOfDischarge fv);
     Schema.vessel := pick "vessel" (Schema.vessel fv);
     Schema.unitTypes := Schema.unitTypes fv |}.

Definition getField (name : string) (fv : Schema.FieldValues) : option string :=
  if String.eqb name "departure" then Schema.departure fv
  else if String.eqb name "arrival" then Schema.arrival fv
  else if String.eqb name "portOfLoading" then Schema.portOfLoading fv
  else if String.eqb name "portOfDischarge" then Schema.portOfDischarge fv
  else if String.eqb name "vessel" then Schema.vessel fv
  else None.

Definition setValue (name : string) (v : string) : State -> State :=
  setFormValues (setField name v).

Definition setValue_unitTypes (l : list string) : State -> State :=
  setFormValues (fun fv =>
    {| Schema.departure := Schema.departure fv;
       Schema.arrival := Schema.arrival fv;
       Schema.portOfLoading := Schema.portOfLoading fv;
       Schema.portOfDischarge := Schema.portOfDischarge fv;
       Schema.vessel := Schema.vessel fv;
       Schema.unitTypes := Some l |}).

(** *** The port-pairing rule *)

Definition handlePortOfLoadingChange (selectedPort : string) (st : State) : State :=
  let st := setPortOfLoading selectedPort st in
  let st := setValue "portOfLoading" selectedPort st in
  if String.eqb selectedPort "Copenhagen" then
    let st := setPortOfDischarge "Oslo" st in
    setValue "portOfDischarge" "Oslo" st
  else if String.eqb selectedPort "Oslo" then
    let st := setPortOfDischarge "Copenhagen" st in
    setValue "portOfDischarge" "Copenhagen" st
  else
    let st := setPortOfDischarge "" st in
    setValue "portOfDischarge" "" st.

(** *** Mounting: registration and effects *)

(** The items of the port-of-loading dropdown. *)
Definition portItems : list Dropdown.Item :=
  [ {| Dropdown.value := "Copenhagen"; Dropdown.label := "Copenhagen" |};
    {| Dropdown.value := "Oslo"; Dropdown.label := "Oslo" |} ].

(** [register(name)] on an input: a field that has no value yet takes
    the value of the input element. *)
Definition register (name : string) (domValue : string) : State -> State :=
  setFormValues (fun fv =>
    match getField name fv with
    | None => setField name domValue fv
    | Some _ => fv
    end).

(** One commit after a render of the state [render]: the three inputs are
    registered, then the effects run, those of the two dropdowns before
    those of the form.  The effects read the values of the render; every
    effect is run, since one whose dependencies did not change would write
    again what it wrote before.  The two date inputs are empty until the
    user types into them. *)
Definition commitEffects (vesselOptions : list Dropdown.Item) (render : State) : State :=
  let st := register "departure" "" render in
  let st := register "arrival" "" st in
  let st := register "portOfDischarge" (portOfDischarge render) st in
  let st := match Dropdown.autoSelect portItems (portOfLoading render) with
            | Some p => handlePortOfLoadingChange p st
            | None => st
            end in
  let st := match Dropdown.autoSelect vesselOptions (selectedVessel render) with
            | Some v => setSelectedVessel v st
            | None => st
            end in
  let st := setValue "vessel" (selectedVessel render) st in
  setValue_unitTypes (MultiSelect.value <$> (selectedUnitTypes render)) st.

(** The state updates of a commit cause one more render and commit. *)
Definition mount (vesselOptions : list Dropdown.Item) : State :=
  commitEffects vesselOptions (commitEffects vesselOptions initialState).

(** A form that holds an empty draft: nothing is selected. *)
Definition createdEmpty (st : State) : Prop :=
  selectedVessel st = "" /\ portOfLoading st = "" /\ portOfDischarge st = ""
  /\ selectedUnitTypes st = [].

(** *** Submission *)

(** What [fetch] resolves to, as far as the mutation reads it; [json]
    is [None] when the body does not parse. *)
Record Response := {
  status : Z;
  statusText : string;
  json : option JsValue
}.

(** [response.ok]: the status is in the range 200-299. *)
Definition ok (r : Response) : bool :=
  ((200 <=? status r)%Z && (status r <=? 299)%Z)%bool.

Record Request := {
  url : string;
  method : string;
  headers : list (string * string);
  body : Schema.VoyageFormData
}.

(** The values that can be thrown during a submission. *)
Inductive Thrown :=
| RangeError
| FetchRejected
| FailedToCreate (status : Z) (statusText : string)
| JsonRejected.

(** The observable steps of a submission, in program order. [Validate]
    and [Normalize] mark the run of the resolver and the two calls of
    [toISOString]. *)
Inductive Event :=
| Validate (values : Schema.FieldValues)
| Normalize (departure arrival : string)
| Fetch (req : Request)
| OnSuccess
| ConsoleError (label : string) (error : Thrown).

(** The request of the mutation: the data as JSON, posted to the create
    endpoint. *)
Definition createRequest (data : Schema.VoyageFormData) : Request :=
  {| url := "/api/voyage/create";
     method := "POST";
     headers := [("Content-Type", "application/json")];
     body := data |}.

Section Submission.
Context `{JsDate}.
(** [fetch]: [None] when the promise is rejected. *)
Variable fetch : Request -> option Response.

Definition mutationFn (data : Schema.VoyageFormData) : list Event * (Thrown + JsValue) :=
  let req := createRequest data in
  ([Fetch req],
   match fetch req with
   | None => inl FetchRejected
   | Some response =>
       if negb (ok response)
       then inl (FailedToCreate (status response) (statusText response))
       else match json response with
            | Some v => inr v
            | None => inl JsonRejected
            end
   end).

(** [createVoyageMutation.mutate(data)] with its two callbacks. *)
Definition createVoyageMutation (data : Schema.VoyageFormData) : list Event :=
  let (trace, result) := mutationFn data in
  trace ++ match result with
           | inr _ => [OnSuccess]
           | inl error => [ConsoleError "Error creating voyage:" error]
           end.

(** [onSubmit(data)]; [Some RangeError] when [toISOString] throws. *)
Definition onSubmit (st : State) (data : Schema.VoyageFormData)
    : list Event * option Thrown :=
  match toISOString (Date_new (Schema.departure data)) with
  | None => ([], Some RangeError)
  | Some dep =>
      match toISOString (Date_new (Schema.arrival data)) with
      | None => ([], Some RangeError)
      | Some arr =>
          let data :=
            {| Schema.departure := dep;
               Schema.arrival := arr;
               Schema.portOfLoading := Schema.portOfLoading data;
               Schema.portOfDischarge := Schema.portOfDischarge data;
               Schema.vessel := selectedVessel st;
               Schema.unitTypes := MultiSelect.value <$> (selectedUnitTypes st) |} in
          (Normalize dep arr :: createVoyageMutation data, None)
      end
  end.

(** [handleSubmit(onSubmit)] of the form library: the resolver runs on
    the field values; its errors become [formState.errors], and
    [onSubmit] is called with the parsed values only when there are none. *)
Definition handleSubmit (st : State) : State * list Event * option Thrown :=
  let r := Schema.zodResolver (formValues st) in
  let st' := setErrors (Schema.errors r) st in
  match Schema.values r with
  | Some data =>
      if bool_decide (Schema.errors r = ∅)
      then let (trace, thrown) := onSubmit st data in
           (st', Validate (formValues st) :: trace, thrown)
      else (st', [Validate (formValues st)], None)
  | None => (st', [Validate (formValues st)], None)
  end.

End Submission.

Definition isOnSuccess (e : Event) : bool :=
  match e with
  | OnSuccess => true
  | _ => false
  end.

(** How often the success callback of the caller is invoked. *)
Definition callbackCalls (trace : list Event) : nat :=
  length (List.filter isOnSuccess trace).


(** The form with one vessel loaded, after the user has typed the two
    dates and selected one unit type. *)
Definition filledForm : State :=
  let vesselOptions :=
    [ {| Dropdown.value := "v1"; Dropdown.label := "Vessel 1" |} ] in
  let u1 := {| MultiSelect.value := "u1"; MultiSelect.label := "Trailer" |} in
  let st := mount vesselOptions in
  let st := setValue "departure" "2025-01-01T10:00" st in
  let st := setValue "arrival" "2025-01-02T10:00" st in
  let st := setSelectedUnitTypes
              (MultiSelect.step {| MultiSelect.inputValue := "";
                                   MultiSelect.isOpen := true |}
                                (selectedUnitTypes st) (MultiSelect.Select u1)) st in
  commitEffects vesselOptions st.

(** The values that the resolver yields for the filled form. *)
Definition filledData : Schema.VoyageFormData :=
  {| Schema.departure := "2025-01-01T10:00";
     Schema.arrival := "2025-01-02T10:00";
     Schema.portOfLoading := "Copenhagen";
     Schema.portOfDischarge := "Oslo";
     Schema.vessel := "v1";
     Schema.unitTypes := ["u1"] |}.

(** The endpoint that answers every request with [r]. *)
Definition always (r : Response) : Request -> option Response :=
  fun _ => Some r.

End CreateVoyageForm.

(** ** The create endpoint ([pages/api/voyage/create.ts]) *)

Module CreateApi.
Import Js.

(** The argument of [prisma.voyage.create]: the body fields as they
    came, and one [{id}] object per unit type to connect. *)
Record VoyageCreateInput := {
  scheduledDeparture : JsValue;
  scheduledArrival : JsValue;
  portOfLoading : JsValue;
  portOfDischarge : JsValue;
  vesselId : JsValue;
  unitTypes_connect : list JsValue
}.

(** The data-access layer: [voyage_create] answers the created record or
    the error its promise is rejected with, and the store afterwards. *)
Class Prisma := {
  Db : Type;
  Voyage : Type;
  PrismaError : Type;
  voyage_create : VoyageCreateInput -> Db -> (PrismaError + Voyage) * Db
}.

Record NextApiRequest := {
  method : string;
  body : JsValue
}.

Section Handler.
Context `{Prisma}.

Inductive Payload :=
| Text (s : string)
| JsonVoyage (v : Voyage)
| JsonValue (v : JsValue).

(** The response object, with the headers the handler sets itself. *)
Record NextApiResponse := {
  statusCode : Z;
  headers : gmap string (list string);
  sent : option Payload
}.

Definition newResponse : NextApiResponse :=
  {| statusCode := 200; headers := ∅; sent := None |}.

Definition setHeader (name : string) (v : list string)
    (res : NextApiResponse) : NextApiResponse :=
  {| statusCode := statusCode res;
     headers := <[name := v]> (headers res);
     sent := sent res |}.

Definition status (c : Z) (res : NextApiResponse) : NextApiResponse :=
  {| statusCode := c; headers := headers res; sent := sent res |}.

Definition send (p : Payload) (res : NextApiResponse) : NextApiResponse :=
  {| statusCode := statusCode res; headers := headers res; sent := Some p |}.

Inductive Thrown :=
| TypeError
| Rejected (e : PrismaError).

(** What a run of the handler leaves behind: the store, the lines
    written with [console.error], the response object, and the exception
    that left the handler, if any. *)
Record Outcome := {
  db : Db;
  console : list (string * Thrown);
  response : NextApiResponse;
  uncaught : option Thrown
}.

(** The [data] object passed to [prisma.voyage.create], [ids] being
    the elements of [unitTypes]. *)
Definition createInput (b : JsValue) (ids : list JsValue) : VoyageCreateInput :=
  {| scheduledDeparture := getProp b "departure";
     scheduledArrival := getProp b "arrival";
     portOfLoading := getProp b "portOfLoading";
     portOfDischarge := getProp b "portOfDischarge";
     vesselId := getProp b "vessel";
     unitTypes_connect := (fun id => JObject [("id", id)]) <$> ids |}.

(** The body of the [try] block up to the response: [unitTypes.map] is
    a TypeError unless [unitTypes] is an array. *)
Definition create (b : JsValue) (d : Db) : (Thrown + Voyage) * Db :=
  match getProp b "unitTypes" with
  | JArray ids =>
      let (r, d') := voyage_create (createInput b ids) d in
      (match r with inl e => inl (Rejected e) | inr v => inr v end, d')
  | _ => (inl TypeError, d)
  end.

Definition handler (req : NextApiRequest) (d : Db) : Outcome :=
  let res := newResponse in
  if String.eqb (method req) "POST" then
    match body req with
    | JUndefined | JNull =>
        (* destructuring [req.body] throws before the [try] *)
        {| db := d; console := []; response := res; uncaught := Some TypeError |}
    | b =>
        match create b d with
        | (inr createdVoyage, d') =>
            {| db := d'; console := [];
               response := send (JsonVoyage createdVoyage) (status 201 res);
               uncaught := None |}
        | (inl error, d') =>
            {| db := d'; console := [("Error creating voyage:", error)];
               response :=
                 send (JsonValue (JObject [("error", JString "Internal server error")]))
                      (status 500 res);
               uncaught := None |}
        end
    end
  else
    let res := setHeader "Allow" ["POST"] res in
    {| db := d; console := [];
       response := send (Text ("Method " +:+ method req +:+ " not allowed"))
                        (status 405 res);
       uncaught := None |}.

End Handler.

End CreateApi.

(** ** Executable instances of the two interfaces *)

(** A store kept in memory: [voyage_create] checks the references the
    way a relational store does and numbers the rows. *)
Module MemoryDb.
Import Js CreateApi.

Record Row := { id : nat; data : VoyageCreateInput }.

Record Store := {
  vessels : list string;
  unitTypes : list string;
  voyages : list Row
}.

Inductive Error := ForeignKeyViolation | RecordNotFound.

Definition known (ids : list string) (v : JsValue) : bool :=
  match v with
  | JString s => existsb (String.eqb s) ids
  | _ => false
  end.

Definition create (input : VoyageCreateInput) (st : Store) : (Error + Row) * Store :=
  if negb (known (vessels st) (vesselId input)) then (inl ForeignKeyViolation, st)
  else if negb (forallb (fun o => known (unitTypes st) (getProp o "id"))
                        (unitTypes_connect input))
  then (inl RecordNotFound, st)
  else
    let row := {| id := length (voyages st); data := input |} in
    (inr row, {| vessels := vessels st; unitTypes := unitTypes st;
                 voyages := voyages st ++ [row] |}).

#[global] Instance prisma : Prisma :=
  {| Db := Store; Voyage := Row; PrismaError := Error; voyage_create := create |}.

End MemoryDb.

(** Dates in the ISO forms [YYYY-MM-DD] and [YYYY-MM-DDTHH:mm], with
    optional [:ss], [.sss] and a final [Z], read as UTC (the time zone of
    the environment is taken to be UTC); every other string is an
    Invalid Date. *)
Module IsoDate.
Import Js.

Definition digit (c : ascii) : option Z :=
  let n := Z.of_nat (nat_of_ascii c) in
  if ((48 <=? n)%Z && (n <=? 57)%Z)%bool then Some (n - 48) else None.

Fixpoint digits (s : string) (acc : Z) : option Z :=
  match s with
  | EmptyString => Some acc
  | String c rest =>
      match digit c with
      | Some d => digits rest (10 * acc + d)
      | None => None
      end
  end.

(** The number written in the [len] characters from position [from]. *)
Definition num (s : string) (from len : nat) : option Z :=
  let t := substring from len s in
  if (String.length t =? len)%nat then digits t 0 else None.

Definition isLeap (y : Z) : bool :=
  ((y mod 4 =? 0)%Z && (negb (y mod 100 =? 0)%Z || (y mod 400 =? 0)%Z))%bool.

Definition daysInMonth (y m : Z) : Z :=
  if (m =? 2)%Z then (if isLeap y then 29 else 28)
  else if ((m =? 4) || (m =? 6) || (m =? 9) || (m =? 11))%Z%bool then 30
  else 31.

(** Days from 1970-01-01 to the civil date [y-m-d]. *)
Definition daysFromCivil (y m d : Z) : Z :=
  let y' := if (m <=? 2)%Z then y - 1 else y in
  let era := y' / 400 in
  let yoe := y' - era * 400 in
  let doy := (153 * (if (2 <? m)%Z then m - 3 else m + 9) + 2) / 5 + d - 1 in
  let doe := yoe * 365 + yoe / 4 - yoe / 100 + doy in
  era * 146097 + doe - 719468.

(** The civil date of a day number. *)
Definition civilFromDays (z : Z) : Z * Z * Z :=
  let z := z + 719468 in
  let era := z / 146097 in
  let doe := z - era * 146097 in
  let yoe := (doe - doe / 1460 + doe / 36524 - doe / 146096) / 365 in
  let doy := doe - (365 * yoe + yoe / 4 - yoe / 100) in
  let mp := (5 * doy + 2) / 153 in
  let d := doy - (153 * mp + 2) / 5 + 1 in
  let m := if (mp <? 10)%Z then mp + 3 else mp - 9 in
  (yoe + era * 400 + (if (m <=? 2)%Z then 1 else 0), m, d).

Definition msPerDay : Z := 86400000.

Definition makeTime (y m d hh mm ss ms : Z) : Date :=
  if ((1 <=? m) && (m <=? 12) && (1 <=? d) && (d <=? daysInMonth y m)
      && (hh <=? 23) && (mm <=? 59) && (ss <=? 59))%Z%bool
  then Some (daysFromCivil y m d * msPerDay
             + hh * 3600000 + mm * 60000 + ss * 1000 + ms)
  else None.

(** The part after the minutes: nothing, [:ss] or [:ss.sss], then an
    optional [Z]; answers seconds and milliseconds. *)
Definition parseSeconds (t : string) : option (Z * Z) :=
  let t := if String.eqb (substring (String.length t - 1) 1 t) "Z"
           then substring 0 (String.length t - 1) t else t in
  if String.eqb t "" then Some (0, 0)
  else if (String.eqb (substring 0 1 t) ":" && (String.length t =? 3)%nat)%bool
  then match num t 1 2 with Some ss => Some (ss, 0) | None => None end
  else if (String.eqb (substring 0 1 t) ":" && String.eqb (substring 3 1 t) "."
           && (String.length t =? 7)%nat)%bool
  then match num t 1 2, num t 4 3 with
       | Some ss, Some ms => Some (ss, ms)
       | _, _ => None
       end
  else None.

Definition parse (s : string) : Date :=
  if (String.eqb (substring 4 1 s) "-" && String.eqb (substring 7 1 s) "-")%bool
  then
    match num s 0 4, num s 5 2, num s 8 2 with
    | Some y, Some m, Some d =>
        if (String.length s =? 10)%nat then makeTime y m d 0 0 0 0
        else if (String.eqb (substring 10 1 s) "T"
                 && String.eqb (substring 13 1 s) ":")%bool
        then match num s 11 2, num s 14 2,
                   parseSeconds (substring 16 (String.length s - 16) s) with
             | Some hh, Some mm, Some (ss, ms) => makeTime y m d hh mm ss ms
             | _, _, _ => None
             end
        else None
    | _, _, _ => None
    end
  else None.

(** The last [width] decimal digits of [z]. *)
Fixpoint pad (width : nat) (z : Z) : string :=
  match width with
  | O => ""
  | S w => pad w (z / 10) +:+
           String (ascii_of_nat (Z.to_nat (48 + z mod 10))) ""
  end.

(** [YYYY-MM-DDTHH:mm:ss.sssZ], the year with a sign and six digits
    outside 0..9999. *)
Definition format (t : Z) : string :=
  let day := t / msPerDay in
  let r := t mod msPerDay in
  let '(y, m, d) := civilFromDays day in
  let year := if ((0 <=? y) && (y <=? 9999))%Z%bool then pad 4 y
              else (if (y <? 0)%Z then "-" else "+") +:+ pad 6 (Z.abs y) in
  year +:+ "-" +:+ pad 2 m +:+ "-" +:+ pad 2 d +:+ "T" +:+
  pad 2 (r / 3600000) +:+ ":" +:+ pad 2 (r / 60000 mod 60) +:+ ":" +:+
  pad 2 (r / 1000 mod 60) +:+ "." +:+ pad 3 (r mod 1000) +:+ "Z".

#[global] Instance jsDate : JsDate :=
  {| Date_new := parse; isoOfTime := format; Date_new_empty := eq_refl |}.

End IsoDate.


(** ** What the widgets render *)

(** The two string operations of the search filter.  [toLowerCase] is
    the one of the runtime; [includes] is the substring test. *)
Module JsString.

Class Lowering := {
  toLowerCase : string -> string;
  toLowerCase_empty : toLowerCase "" = ""
}.

(** [s.includes(sub)]. *)
Fixpoint includes (s sub : string) : bool :=
  String.prefix sub s
  || match s with
     | EmptyString => false
     | String _ rest => includes rest sub
     end.

(** Lower case of the letters A-Z; every other character is kept. *)
Definition lowerAscii (c : ascii) : ascii :=
  let n := nat_of_ascii c in
  if ((65 <=? n) && (n <=? 90))%nat then ascii_of_nat (n + 32) else c.

Fixpoint lower (s : string) : string :=
  match s with
  | EmptyString => EmptyString
  | String c rest => String (lowerAscii c) (lower rest)
  end.

#[global] Instance asciiLowering : Lowering :=
  {| toLowerCase := lower; toLowerCase_empty := eq_refl |}.

End JsString.

(** The rendered part of [MultiSelect] ([multiSelect.tsx]). *)
Module MultiSelectRender.
Import JsString MultiSelect.

(** The options offered in the list: those not selected whose label
    contains the search input, both in lower case. *)
Definition filteredUnitTypes `{Lowering} (unitTypes selected : list UnitType)
    (inputValue : string) : list UnitType :=
  List.filter
    (fun unitType =>
       negb (existsb (fun s => String.eqb (value s) (value unitType)) selected)
       && includes (toLowerCase (label unitType)) (toLowerCase inputValue))
    unitTypes.

(** The list is rendered when [isOpen && filteredUnitTypes.length > 0]. *)
Definition listShown `{Lowering} (unitTypes selected : list UnitType)
    (st : State) : bool :=
  isOpen st && (0 <? length (filteredUnitTypes unitTypes selected (inputValue st)))%nat.

Definition placeholder (selected : list UnitType) : string :=
  if (0 <? length selected)%nat then "Click to delete" else "Select Unit Types...".

(** The events that the rendered widget can raise: a mouse-down on an
    item of the shown list, a mouse-down on a badge of a selected entry,
    any key. *)
Definition canRaise `{Lowering} (unitTypes selected : list UnitType)
    (st : State) (e : Event) : Prop :=
  match e with
  | Select u =>
      listShown unitTypes selected st = true
      /\ u ∈ filteredUnitTypes unitTypes selected (inputValue st)
  | Unselect u => u ∈ selected
  | KeyDown _ _ => True
  end.

(** The lists that a use of the widget over the options [unitTypes] can
    reach from the empty selection. *)
Inductive reachable `{Lowering} (unitTypes : list UnitType) : list UnitType -> Prop :=
| reachable_empty : reachable unitTypes []
| reachable_step selected st e :
    reachable unitTypes selected ->
    canRaise unitTypes selected st e ->
    reachable unitTypes (step st selected e).

End MultiSelectRender.

(** The rendered part of [Dropdown] ([dropdown.tsx]). *)
Module DropdownRender.
Import Dropdown.

(** The label of the button: that of the first item with the selected
    value, or "Select an option" when there is none or it is empty. *)
Definition selectedItemLabel (items : list Item) (selectedItem : string) : string :=
  match List.find (fun item => String.eqb (value item) selectedItem) items with
  | Some item => if String.eqb (label item) "" then "Select an option" else label item
  | None => "Select an option"
  end.

(** The selection after the effect of a render. *)
Definition afterEffect (items : list Item) (selectedItem : string) : string :=
  match autoSelect items selectedItem with
  | Some v => v
  | None => selectedItem
  end.

End DropdownRender.

(** ** A session with the creation form *)

Module FormSession.
Import Js CreateVoyageForm.

(** After an update the form renders and commits, and once more for the
    state updates of that commit. *)
Definition settle (vesselOptions : list Dropdown.Item) (st : State) : State :=
  commitEffects vesselOptions (commitEffects vesselOptions st).

(** What the user can do with the form: type into the two date inputs
    (the [onChange] of a registered input stores the value), pick an item
    of one of the two dropdowns, use the unit-type widget, submit. *)
Inductive UserEvent :=
| ChangeDeparture (s : string)
| ChangeArrival (s : string)
| SelectPort (item : Dropdown.Item)
| SelectVessel (item : Dropdown.Item)
| UnitTypes (ms : MultiSelect.State) (e : MultiSelect.Event)
| Submit.

Section Session.
Context `{JsDate}.
Variable fetch : Request -> option Response.
Variable vesselOptions : list Dropdown.Item.

Definition handleEvent (ev : UserEvent) (st : State) : State :=
  match ev with
  | ChangeDeparture s => setValue "departure" s st
  | ChangeArrival s => setValue "arrival" s st
  | SelectPort item => handlePortOfLoadingChange (Dropdown.value item) st
  | SelectVessel item => setSelectedVessel (Dropdown.value item) st
  | UnitTypes ms e =>
      setSelectedUnitTypes (MultiSelect.step ms (selectedUnitTypes st) e) st
  | Submit => (handleSubmit fetch st).1.1
  end.

Definition dispatch (ev : UserEvent) (st : State) : State :=
  settle vesselOptions (handleEvent ev st).

(** A dropdown raises a selection only for one of its items. *)
Definition canRaise (ev : UserEvent) : Prop :=
  match ev with
  | SelectPort item => item ∈ portItems
  | SelectVessel item => item ∈ vesselOptions
  | _ => True
  end.

(** The state after mounting and a list of events. *)
Definition session (events : list UserEvent) : State :=
  foldl (fun st ev => dispatch ev st) (mount vesselOptions) events.

End Session.

(** The two ports are always one of the two pairs. *)
Definition paired (st : State) : Prop :=
  portOfLoading st = "Copenhagen" /\ portOfDischarge st = "Oslo"
  \/ portOfLoading st = "Oslo" /\ portOfDischarge st = "Copenhagen".

(** The form values mirror the selection state, and the two dates have a
    value. *)
Definition mirrored (st : State) : Prop :=
  exists dep arr,
    formValues st =
      {| Schema.departure := Some dep;
         Schema.arrival := Some arr;
         Schema.portOfLoading := Some (portOfLoading st);
         Schema.portOfDischarge := Some (portOfDischarge st);
         Schema.vessel := Some (selectedVessel st);
         Schema.unitTypes := Some (MultiSelect.value <$> selectedUnitTypes st) |}.

(** What holds of every state of a session (shown below). *)
Definition sessionInvariant (vesselOptions : list Dropdown.Item) (st : State) : Prop :=
  paired st /\ mirrored st
  /\ MultiSelect.duplicateFree (selectedUnitTypes st)
  /\ (vesselOptions <> [] ->
      (forall item, item ∈ vesselOptions -> Dropdown.value item <> "") ->
      selectedVessel st <> "").

(** How often a request is sent, and how often a failure is logged. *)
Definition fetchCalls (trace : list Event) : nat :=
  length (List.filter (fun e => match e with Fetch _ => true | _ => false end) trace).

Definition errorLogs (trace : list Event) : nat :=
  length (List.filter (fun e => match e with ConsoleError _ _ => true | _ => false end)
                      trace).

(** A session for examples: one vessel is loaded; the user types the
    two dates, picks Oslo, selects one unit type and submits; the endpoint
    answers that the voyage was created. *)
Definition oneVessel : list Dropdown.Item :=
  [ {| Dropdown.value := "v1"; Dropdown.label := "Vessel 1" |} ].

Definition fillAndSubmit : list UserEvent :=
  [ ChangeDeparture "2025-01-01T10:00";
    ChangeArrival "2025-01-02T10:00";
    SelectPort {| Dropdown.value := "Oslo"; Dropdown.label := "Oslo" |};
    UnitTypes {| MultiSelect.inputValue := ""; MultiSelect.isOpen := true |}
              (MultiSelect.Select {| MultiSelect.value := "u1";
                                     MultiSelect.label := "Trailer" |});
    Submit ].

Definition createdResponse : Response :=
  {| status := 201; statusText := "Created";
     json := Some (JObject [("id", JString "voyage-1")]) |}.

End FormSession.

(** ** The form and the endpoint together *)

Module EndToEnd.
Import Js.

(** The request body on the wire: [JSON.stringify(data)] on the client,
    read back by the body parser of the server. *)
Definition jsonBody (data : Schema.VoyageFormData) : JsValue :=
  JObject [("departure", JString (Schema.departure data));
           ("arrival", JString (Schema.arrival data));
           ("portOfLoading", JString (Schema.portOfLoading data));
           ("portOfDischarge", JString (Schema.portOfDischarge data));
           ("vessel", JString (Schema.vessel data));
           ("unitTypes", JArray (JString <$> Schema.unitTypes data))].

Section Wire.
Context `{CreateApi.Prisma}.
(** The JSON of a stored voyage, and the reason phrase of a status. *)
Variable voyageJson : CreateApi.Voyage -> JsValue.
Variable reasonPhrase : Z -> string.

(** What [response.json()] gives for a payload; a text payload of the
    handler is no JSON. *)
Definition payloadJson (p : CreateApi.Payload) : option JsValue :=
  match p with
  | CreateApi.Text _ => None
  | CreateApi.JsonVoyage v => Some (voyageJson v)
  | CreateApi.JsonValue v => Some v
  end.

(** The run of the handler for a request of the form. *)
Definition serve (d : CreateApi.Db) (req : CreateVoyageForm.Request) : CreateApi.Outcome :=
  CreateApi.handler
    {| CreateApi.method := CreateVoyageForm.method req;
       CreateApi.body := jsonBody (CreateVoyageForm.body req) |} d.

(** The response as the form sees it.  For a handler that threw, the
    framework answers 500 with a text body. *)
Definition wireResponse (o : CreateApi.Outcome) : CreateVoyageForm.Response :=
  match CreateApi.uncaught o with
  | Some _ =>
      {| CreateVoyageForm.status := 500;
         CreateVoyageForm.statusText := reasonPhrase 500;
         CreateVoyageForm.json := None |}
  | None =>
      {| CreateVoyageForm.status := CreateApi.statusCode (CreateApi.response o);
         CreateVoyageForm.statusText :=
           reasonPhrase (CreateApi.statusCode (CreateApi.response o));
         CreateVoyageForm.json :=
           match CreateApi.sent (CreateApi.response o) with
           | Some p => payloadJson p
           | None => None
           end |}
  end.

(** [fetch] against the endpoint over the store [d]. *)
Definition endpoint (d : CreateApi.Db)
    : CreateVoyageForm.Request -> option CreateVoyageForm.Response :=
  fun req => Some (wireResponse (serve d req)).

(** The record that the store is asked to create for posted data. *)
Definition storedInput (data : Schema.VoyageFormData) : CreateApi.VoyageCreateInput :=
  {| CreateApi.scheduledDeparture := JString (Schema.departure data);
     CreateApi.scheduledArrival := JString (Schema.arrival data);
     CreateApi.portOfLoading := JString (Schema.portOfLoading data);
     CreateApi.portOfDischarge := JString (Schema.portOfDischarge data);
     CreateApi.vesselId := JString (Schema.vessel data);
     CreateApi.unitTypes_connect :=
       (fun u => JObject [("id", JString u)]) <$> Schema.unitTypes data |}.

End Wire.

End EndToEnd.

(** ** The page of voyages ([pages/index.tsx], [Home]) *)

Module Home.

Record Toast := {
  title : string;
  description : string;
  variant : option string
}.

(** The sheet, and what the page has done so far: the toasts shown, the
    query keys invalidated, the lines written to the console (the text,
    and the message of the error written with it, if any). *)
Record State := {
  isSheetOpen : bool;
  toasts : list Toast;
  invalidated : list (list string);
  console : list (string * option string)
}.

Definition setSheetOpen (b : bool) (st : State) : State :=
  {| isSheetOpen := b; toasts := toasts st;
     invalidated := invalidated st; console := console st |}.

Definition toast (t : Toast) (st : State) : State :=
  {| isSheetOpen := isSheetOpen st; toasts := toasts st ++ [t];
     invalidated := invalidated st; console := console st |}.

Definition invalidateQueries (queryKey : list string) (st : State) : State :=
  {| isSheetOpen := isSheetOpen st; toasts := toasts st;
     invalidated := invalidated st ++ [queryKey]; console := console st |}.

Definition consoleWrite (line : string) (error : option string) (st : State) : State :=
  {| isSheetOpen := isSheetOpen st; toasts := toasts st;
     invalidated := invalidated st; console := console st ++ [(line, error)] |}.

Definition handleCreateSuccess (st : State) : State :=
  let st := consoleWrite "handleCreateSuccess called" None st in
  let st := toast {| title := "Voyage created successfully!";
                     description := "The new voyage has been added to the list.";
                     variant := None |} st in
  let st := setSheetOpen false st in
  let st := invalidateQueries ["voyages"] st in
  consoleWrite "Voyages query invalidated" None st.

(** The page passes [handleCreateSuccess] to the form as [onSuccess]:
    what a submission of the form does to the page. *)
Definition afterSubmission (trace : list CreateVoyageForm.Event) (st : State) : State :=
  foldl (fun st e => if CreateVoyageForm.isOnSuccess e then handleCreateSuccess st else st)
        st trace.

Section Delete.
(** [fetch(url, {method})] for the delete call: the message of the
    error it is rejected with, or [response.ok]. *)
Variable fetch : string -> string -> string + bool.

(** [handleDelete(voyageId)]: the mutation with its two callbacks. *)
Definition handleDelete (voyageId : string) (st : State) : State :=
  let onError (message : string) :=
    let st := toast {| title := "Failed to delete voyage";
                       description := message;
                       variant := Some "destructive" |} st in
    consoleWrite "Error deleting voyage:" (Some message) st in
  match fetch ("/api/voyage/delete?id=" +:+ voyageId) "DELETE" with
  | inl message => onError message
  | inr false => onError "Failed to delete the voyage"
  | inr true =>
      let st := invalidateQueries ["voyages"] st in
      consoleWrite "Voyage deleted and query invalidated" None st
  end.

End Delete.

End Home.

(** ** The earlier version of the form ([src/unnamed/part_000]) *)

Module EarlierForm.
Import Js.

(** The response as this version reads it: [text] is [None] when
    reading the body fails. *)
Record Response := {
  status : Z;
  statusText : string;
  text : option string
}.

Definition ok (r : Response) : bool :=
  ((200 <=? status r)%Z && (status r <=? 299)%Z)%bool.

Inductive Thrown :=
| FetchRejected
| TextRejected
| FailedToCreate (status : Z) (statusText : string)
| FailedToParse (message : string).

Inductive Event :=
| LogSubmitting (data : Schema.VoyageFormData)
| Fetch (req : CreateVoyageForm.Request)
| LogRawResponse (responseText : string)
| LogCreated
| OnSuccess
| ConsoleError (label : string) (error : Thrown).

Section Mutation.
(** [JSON.parse]: the value, or the message of the SyntaxError. *)
Variable JSON_parse : string -> string + JsValue.
Variable fetch : CreateVoyageForm.Request -> option Response.

Definition mutationFn (data : Schema.VoyageFormData) : list Event * (Thrown + JsValue) :=
  let req := CreateVoyageForm.createRequest data in
  match fetch req with
  | None => ([LogSubmitting data; Fetch req], inl FetchRejected)
  | Some response =>
      match text response with
      | None => ([LogSubmitting data; Fetch req], inl TextRejected)
      | Some responseText =>
          ([LogSubmitting data; Fetch req; LogRawResponse responseText],
           if negb (ok response)
           then inl (FailedToCreate (status response) (statusText response))
           else match JSON_parse responseText with
                | inr v => inr v
                | inl message => inl (FailedToParse message)
                end)
      end
  end.

Definition createVoyageMutation (data : Schema.VoyageFormData) : list Event :=
  let (trace, result) := mutationFn data in
  trace ++ match result with
           | inr _ => [LogCreated; OnSuccess]
           | inl error => [ConsoleError "Error creating voyage:" error]
           end.

(** The same response read with [response.json()], which reads the text
    and parses it. *)
Definition asJson (r : Response) : CreateVoyageForm.Response :=
  {| CreateVoyageForm.status := status r;
     CreateVoyageForm.statusText := statusText r;
     CreateVoyageForm.json :=
       match text r with
       | Some t => match JSON_parse t with inr v => Some v | inl _ => None end
       | None => None
       end |}.

End Mutation.

Definition callbackCalls (trace : list Event) : nat :=
  length (List.filter (fun e => match e with OnSuccess => true | _ => false end) trace).

Definition fetchCalls (trace : list Event) : nat :=
  length (List.filter (fun e => match e with Fetch _ => true | _ => false end) trace).

End EarlierForm.

(** * Properties *)

(** ** The selected unit types *)

Section MultiSelectFacts.
Import MultiSelect.

Lemma find_value_None (selected : list UnitType) (u : UnitType) :
  List.find (fun s => String.eqb (value s) (value u)) selected = None <->
  value u ∉ value <$> selected.
Proof.
  induction selected as [|s l IH]; simpl.
  - split; [intros _; apply not_elem_of_nil | done].
  - destruct (String.eqb_spec (value s) (value u)) as [E|N].
    + split; [done | intros []; rewrite E; apply list_elem_of_here].
    + rewrite IH, not_elem_of_cons. split; [by split|by intros []].
Qed.

Lemma step_Select_present st selected u :
  value u ∈ value <$> selected -> step st selected (Select u) = selected.
Proof.
  intros Hin. unfold step, handleSelect.
  destruct (List.find _ selected) eqn:E; [done|].
  apply find_value_None in E. done.
Qed.

Lemma step_Select_absent st selected u :
  value u ∉ value <$> selected -> step st selected (Select u) = selected ++ [u].
Proof.
  intros Hin. unfold step, handleSelect.
  apply find_value_None in Hin. by rewrite Hin.
Qed.

Lemma pop_snoc (l : list UnitType) (x : UnitType) : pop (l ++ [x]) = l.
Proof. unfold pop. apply removelast_last. Qed.

Lemma pop_sublist (l : list UnitType) : pop l `sublist_of` l.
Proof.
  destruct l as [|x l' _] using rev_ind; [done|].
  rewrite pop_snoc. by apply sublist_inserts_r.
Qed.

Lemma duplicateFree_sublist (l k : list UnitType) :
  sublist l k -> duplicateFree k -> duplicateFree l.
Proof.
  unfold duplicateFree. intros Hs Hk.
  apply (sublist_NoDup _ (value <$> k)); [exact Hk | by apply fmap_sublist].
Qed.

Lemma step_duplicateFree st selected e :
  duplicateFree selected -> duplicateFree (step st selected e).
Proof.
  intros Hnd. destruct e as [u|u|key input].
  - destruct (decide (value u ∈ value <$> selected)) as [Hin|Hin].
    + by rewrite step_Select_present.
    + rewrite step_Select_absent by done.
      unfold duplicateFree in *. rewrite fmap_app. simpl.
      apply NoDup_app. split_and!; [done| |apply NoDup_singleton].
      intros x Hx Hx'. apply list_elem_of_singleton in Hx'. by subst.
  - simpl. eapply duplicateFree_sublist; [|done]. apply sublist_filter.
  - simpl. unfold handleKeyDown. repeat case_match; simpl; try done.
    eapply duplicateFree_sublist; [|done]. apply pop_sublist.
Qed.

Lemma run_duplicateFree events selected :
  duplicateFree selected -> duplicateFree (run selected events).
Proof.
  revert selected. unfold run.
  induction events as [|[st e] events IH]; intros selected Hnd; simpl; [done|].
  apply IH. by apply step_duplicateFree.
Qed.

Lemma sublist_into_filter (u : UnitType) (k l : list UnitType) :
  k `sublist_of` l -> Forall (fun x => value x <> value u) k ->
  k `sublist_of` handleUnselect u l.
Proof.
  unfold handleUnselect.
  induction 1 as [|x k l Hs IH|x k l Hs IH]; intros Hk.
  - done.
  - apply Forall_cons in Hk as [Hx Hk].
    rewrite filter_cons_True by done. apply sublist_skip. by apply IH.
  - rewrite filter_cons. case_decide; [apply sublist_cons|]; by apply IH.
Qed.

(** C5. With the render up to date: selecting a unit type whose
    identifier is already selected leaves the list as it is; selecting
    one that is not appends it after all earlier entries; unselecting
    keeps, in their order, exactly the entries with another identifier
    (the result is a sublist without the identifier, and every sublist
    without the identifier is a sublist of it). *)
Theorem select_unselect_selected (st : State) (selected : list UnitType)
    (u : UnitType) :
  (value u ∈ value <$> selected -> step st selected (Select u) = selected)
  /\ (value u ∉ value <$> selected ->
      step st selected (Select u) = selected ++ [u])
  /\ (forall x, x ∈ step st selected (Unselect u) <->
                x ∈ selected /\ value x <> value u)
  /\ step st selected (Unselect u) `sublist_of` selected
  /\ (forall k, k `sublist_of` selected ->
                Forall (fun x => value x <> value u) k ->
                k `sublist_of` step st selected (Unselect u)).
Proof.
  split_and!.
  - apply step_Select_present.
  - apply step_Select_absent.
  - intros x. simpl. unfold handleUnselect.
    rewrite list_elem_of_filter. tauto.
  - apply sublist_filter.
  - intros k. apply sublist_into_filter.
Qed.

Lemma select_unselect_selected_witness :
  let a := {| value := "u1"; label := "Trailer" |} in
  let b := {| value := "u2"; label := "Container" |} in
  let st := {| inputValue := "tra"; isOpen := true |} in
  step st [a; b] (Select {| value := "u1"; label := "other" |}) = [a; b]
  /\ step st [a] (Select b) = [a; b]
  /\ [b] `sublist_of` step st [a; b; a] (Unselect a).
Proof.
  intros a b st. split_and!.
  - apply (select_unselect_selected st [a; b] {| value := "u1"; label := "other" |}).
    vm_compute. apply list_elem_of_here.
  - apply (select_unselect_selected st [a] b).
    vm_compute. intros Hin. apply list_elem_of_singleton in Hin. discriminate.
  - apply (select_unselect_selected st [a; b; a] a).
    + apply sublist_cons, sublist_skip, sublist_nil_l.
    + apply Forall_cons. split; [vm_compute; discriminate|constructor].
Defined.

(** C10. The selected list never holds two entries with one identifier:
    each of the three events keeps a duplicate-free list duplicate-free,
    hence so does every session; and the delete key on an empty list
    leaves the empty list. *)
Theorem selected_duplicateFree (st : State) (selected : list UnitType)
    (e : Event) (events : list (State * Event)) :
  duplicateFree selected ->
  duplicateFree (step st selected e)
  /\ duplicateFree (run selected events)
  /\ duplicateFree (run [] events)
  /\ step st [] (KeyDown "Backspace" (Some "")) = []
  /\ step st [] (KeyDown "Delete" (Some "")) = [].
Proof.
  intros Hnd. split_and!; try done.
  - by apply step_duplicateFree.
  - by apply run_duplicateFree.
  - apply run_duplicateFree. apply NoDup_nil_2.
Qed.

Lemma selected_duplicateFree_witness :
  let a := {| value := "u1"; label := "Trailer" |} in
  let b := {| value := "u2"; label := "Container" |} in
  let st := {| inputValue := ""; isOpen := true |} in
  duplicateFree (step st [a; b] (Select a))
  /\ duplicateFree (run [a; b] [(st, KeyDown "Backspace" (Some "")); (st, Select b)]).
Proof.
  intros a b st.
  assert (Hab : duplicateFree [a; b]).
  { unfold duplicateFree. simpl. apply NoDup_cons. split.
    - intros Hin. apply list_elem_of_singleton in Hin. discriminate.
    - apply NoDup_singleton. }
  split;
    apply (selected_duplicateFree st [a; b] (Select a)
             [(st, KeyDown "Backspace" (Some "")); (st, Select b)] Hab).
Defined.

End MultiSelectFacts.

(** ** The port-pairing rule and the mounted form *)

Section FormFacts.
Import CreateVoyageForm.

Lemma handlePortOfLoadingChange_discharge (selectedPort : string) (st : State) :
  portOfDischarge (handlePortOfLoadingChange selectedPort st) =
    (if decide (selectedPort = "Copenhagen") then "Oslo"
     else if decide (selectedPort = "Oslo") then "Copenhagen" else "")
  /\ Schema.portOfDischarge (formValues (handlePortOfLoadingChange selectedPort st)) =
       Some (portOfDischarge (handlePortOfLoadingChange selectedPort st)).
Proof.
  unfold handlePortOfLoadingChange.
  destruct (String.eqb_spec selectedPort "Copenhagen") as [->|N1]; [done|].
  destruct (String.eqb_spec selectedPort "Oslo") as [->|N2]; [done|].
  by rewrite !decide_False by done.
Qed.

(** C2. The discharge port after a change of the loading port is a
    function of the chosen port alone: "Oslo" for "Copenhagen",
    "Copenhagen" for "Oslo", and the empty string for every other
    string, the empty one included; the form value of the discharge port
    is set to the same string and the loading port to the chosen one. *)
Theorem port_pairing (selectedPort : string) (st st' : State) :
  selectedPort <> "Copenhagen" -> selectedPort <> "Oslo" ->
  portOfDischarge (handlePortOfLoadingChange "Copenhagen" st) = "Oslo"
  /\ portOfDischarge (handlePortOfLoadingChange "Oslo" st) = "Copenhagen"
  /\ portOfDischarge (handlePortOfLoadingChange selectedPort st) = ""
  /\ portOfDischarge (handlePortOfLoadingChange "" st) = ""
  /\ (forall p, portOfDischarge (handlePortOfLoadingChange p st) =
               portOfDischarge (handlePortOfLoadingChange p st')
               /\ Schema.portOfDischarge (formValues (handlePortOfLoadingChange p st)) =
                    Some (portOfDischarge (handlePortOfLoadingChange p st))
               /\ portOfLoading (handlePortOfLoadingChange p st) = p
               /\ Schema.portOfLoading (formValues (handlePortOfLoadingChange p st)) =
                    Some p).
Proof.
  intros N1 N2. split_and!; try done.
  - destruct (handlePortOfLoadingChange_discharge selectedPort st) as [-> _].
    by rewrite !decide_False by done.
  - intros p.
    destruct (handlePortOfLoadingChange_discharge p st) as [E1 E2].
    destruct (handlePortOfLoadingChange_discharge p st') as [E1' _].
    split_and!; [congruence|done| |];
      unfold handlePortOfLoadingChange; by repeat case_match.
Qed.

Lemma port_pairing_witness :
  portOfDischarge (handlePortOfLoadingChange "Hamburg" initialState) = ""
  /\ portOfDischarge (handlePortOfLoadingChange "Copenhagen" initialState) = "Oslo".
Proof.
  destruct (port_pairing "Hamburg" initialState initialState)
    as (H1 & _ & H3 & _); [discriminate | discriminate | ].
  split; [exact H3 | exact H1].
Defined.

(** C9, as stated, fails: once mounted, with no vessel loaded and no
    user interaction, the loading port is "Copenhagen" and the discharge
    port "Oslo". *)
Lemma mounted_not_empty : ~ createdEmpty (mount []).
Proof. intros (_ & Hp & _). vm_compute in Hp. discriminate. Qed.

(** C9, amended. The four state cells start empty and no form field has
    a value.  The effects that run on mount select the first port,
    "Copenhagen", which sets the discharge port to "Oslo", and select
    the first vessel among those loaded, if any; the unit types stay
    empty, the two date fields are empty strings, the form values mirror
    the selection, and a further commit changes nothing. *)
Theorem mounted_state (vesselOptions : list Dropdown.Item) :
  createdEmpty initialState
  /\ formValues initialState = Schema.Build_VoyageFields None None None None None None
  /\ mount vesselOptions =
       {| selectedVessel := default "" (Dropdown.value <$> head vesselOptions);
          selectedUnitTypes := [];
          portOfLoading := "Copenhagen";
          portOfDischarge := "Oslo";
          formValues :=
            {| Schema.departure := Some "";
               Schema.arrival := Some "";
               Schema.portOfLoading := Some "Copenhagen";
               Schema.portOfDischarge := Some "Oslo";
               Schema.vessel := Some (default "" (Dropdown.value <$> head vesselOptions));
               Schema.unitTypes := Some [] |};
          errors := ∅ |}
  /\ commitEffects vesselOptions (mount vesselOptions) = mount vesselOptions.
Proof.
  split_and!.
  - by vm_compute.
  - reflexivity.
  - destruct vesselOptions as [|[[|c v] l] rest]; vm_compute; reflexivity.
  - destruct vesselOptions as [|[[|c v] l] rest]; vm_compute; reflexivity.
Qed.

End FormFacts.

(** ** Validation *)

Section SchemaFacts.
Import Js Zod Schema.
Context `{JsDate}.

Lemma parseErrorSchema_lookup (zodErrors : list ZodIssue)
    (errs : gmap string FieldError) (k : string) :
  parseErrorSchema zodErrors errs !! k =
    match errs !! k with
    | Some e => Some e
    | None => fieldError <$> List.find (filedUnder k) zodErrors
    end.
Proof.
  revert errs. induction zodErrors as [|i rest IH]; intros errs; simpl.
  - by destruct (errs !! k).
  - rewrite IH. clear IH. unfold filedUnder at 2.
    destruct (String.eqb_spec (String.concat "." (path i)) k) as [<-|N].
    + destruct (errs !! String.concat "." (path i)) eqn:E.
      * by rewrite E.
      * by rewrite lookup_insert_eq.
    + destruct (errs !! String.concat "." (path i)) eqn:E; [done|].
      by rewrite lookup_insert_ne.
Qed.

(** The schema computes the issues of the rules, in the order of the
    fields, with the ordering issue last. *)
Lemma voyageSchema_typed (d : VoyageFormData) :
  voyageSchema (fieldValues d) =
    (match ruleIssues d with [] => OK d | _ :: _ => DIRTY d end, ruleIssues d).
Proof.
  destruct d as [dep arr pol pod ves uts].
  unfold voyageSchema, refine, ruleIssues, ordering.
  destruct (arrivalAfterDeparture _) eqn:E;
  destruct dep as [|? ?], arr as [|? ?], pol as [|? ?], pod as [|? ?],
           ves as [|? ?], uts as [|? ?]; cbn; rewrite E; reflexivity.
Qed.

Lemma zodResolver_typed (d : VoyageFormData) :
  zodResolver (fieldValues d) =
    match ruleIssues d with
    | [] => {| values := Some d; errors := ∅ |}
    | _ :: _ => {| values := None; errors := parseErrorSchema (ruleIssues d) ∅ |}
    end.
Proof.
  unfold zodResolver, safeParse, handleResult. rewrite voyageSchema_typed.
  by destruct (ruleIssues d).
Qed.

Lemma errors_lookup (d : VoyageFormData) (k : string) :
  errors (zodResolver (fieldValues d)) !! k =
    fieldError <$> List.find (filedUnder k) (ruleIssues d).
Proof.
  rewrite zodResolver_typed. destruct (ruleIssues d) eqn:E; [done|].
  unfold errors at 1. rewrite parseErrorSchema_lookup. by rewrite lookup_empty.
Qed.

Lemma find_required_ne s name msg k rest :
  name <> k ->
  List.find (filedUnder k) (required s name msg ++ rest) =
  List.find (filedUnder k) rest.
Proof.
  intros N. unfold required. case_decide; [|done]. simpl.
  unfold filedUnder at 1. simpl.
  by destruct (String.eqb_spec name k).
Qed.

Lemma find_atLeastOne_ne l name msg k rest :
  name <> k ->
  List.find (filedUnder k) (atLeastOne l name msg ++ rest) =
  List.find (filedUnder k) rest.
Proof.
  intros N. unfold atLeastOne. case_decide; [|done]. simpl.
  unfold filedUnder at 1. simpl.
  by destruct (String.eqb_spec name k).
Qed.

Lemma find_required_empty name msg rest :
  List.find (filedUnder name) (required "" name msg ++ rest) =
  Some {| code := "too_small"; path := [name]; Zod.message := msg |}.
Proof.
  unfold required. simpl. unfold filedUnder at 1. simpl.
  by rewrite String.eqb_refl.
Qed.

Lemma required_filled s name msg : s <> "" -> required s name msg = [].
Proof. intros N. unfold required. by case_decide. Qed.

Lemma ruleIssues_nil (d : VoyageFormData) :
  ruleIssues d = [] ->
  departure d <> "" /\ arrival d <> "" /\ portOfLoading d <> ""
  /\ portOfDischarge d <> "" /\ vessel d <> "" /\ unitTypes d <> []
  /\ arrivalAfterDeparture d = true.
Proof.
  unfold ruleIssues, required, atLeastOne, ordering.
  intros E. repeat (apply app_eq_nil in E as [? E]).
  repeat case_decide; try discriminate.
  destruct (arrivalAfterDeparture d); [done|discriminate].
Qed.

Lemma parseErrorSchema_nonempty (i : ZodIssue) (rest : list ZodIssue) :
  parseErrorSchema (i :: rest) ∅ <> ∅.
Proof.
  intros E. apply (f_equal (fun m => m !! String.concat "." (path i))) in E.
  rewrite parseErrorSchema_lookup, !lookup_empty in E. simpl in E.
  unfold filedUnder at 1 in E. by rewrite String.eqb_refl in E.
Qed.

Lemma date_not_after (d : VoyageFormData) (ta td : Z) :
  Date_new (arrival d) = Some ta -> Date_new (departure d) = Some td ->
  (ta <= td)%Z -> arrivalAfterDeparture d = false.
Proof.
  intros Ea Ed Hle. unfold arrivalAfterDeparture. rewrite Ea, Ed. simpl.
  apply Z.ltb_ge. lia.
Qed.

Lemma dated_not_empty (s : string) (t : Z) : Date_new s = Some t -> s <> "".
Proof. intros E ->. rewrite Date_new_empty in E. discriminate. Qed.

(** C1. A draft whose arrival timestamp is not later than its departure
    timestamp, whatever its other fields hold, does not validate: the
    resolver yields no values, the error of the arrival field is the
    ordering message, no error is filed under the empty (form-level)
    path, and the schema fails with an issue list that holds the
    ordering issue on the path [arrival] and no issue with an empty
    path. *)
Theorem arrival_not_after_departure (d : VoyageFormData) (ta td : Z) :
  Date_new (arrival d) = Some ta -> Date_new (departure d) = Some td ->
  (ta <= td)%Z ->
  values (zodResolver (fieldValues d)) = None
  /\ errors (zodResolver (fieldValues d)) !! "arrival" =
       Some {| type := "custom";
               message := "Arrival date must be after departure date" |}
  /\ errors (zodResolver (fieldValues d)) !! "" = None
  /\ exists issues,
       safeParse (fieldValues d) = failure issues
       /\ {| code := "custom"; path := ["arrival"];
             Zod.message := "Arrival date must be after departure date" |} ∈ issues
       /\ Forall (fun i => path i <> []) issues.
Proof.
  intros Ea Ed Hle.
  pose proof (date_not_after d ta td Ea Ed Hle) as Hord.
  pose proof (dated_not_empty _ _ Ea) as Harr.
  assert (Hne : ruleIssues d <> []).
  { intros E. apply ruleIssues_nil in E as (_ & _ & _ & _ & _ & _ & E). congruence. }
  split_and!.
  - rewrite zodResolver_typed. by destruct (ruleIssues d).
  - rewrite errors_lookup. unfold ruleIssues.
    rewrite find_required_ne by discriminate.
    rewrite (required_filled (arrival d)) by done. simpl app.
    rewrite !find_required_ne by discriminate.
    rewrite find_atLeastOne_ne by discriminate.
    unfold ordering. by rewrite Hord.
  - rewrite errors_lookup. unfold ruleIssues.
    rewrite !find_required_ne by discriminate.
    rewrite find_atLeastOne_ne by discriminate.
    unfold ordering. by rewrite Hord.
  - exists (ruleIssues d). split_and!.
    + unfold safeParse, handleResult. rewrite voyageSchema_typed.
      by destruct (ruleIssues d).
    + unfold ruleIssues. rewrite !elem_of_app. do 6 right.
      unfold ordering. rewrite Hord. apply list_elem_of_here.
    + unfold ruleIssues, required, atLeastOne, ordering.
      rewrite !Forall_app.
      split_and!; repeat case_match; repeat constructor; discriminate.
Qed.

(** C3. In a draft, every scalar field that is the empty string gets its
    own required-message and an empty list of unit types gets its own,
    all of them together when several are empty; with any of them the
    resolver yields no values; and the resolver yields either the draft
    and no error, or no values and at least one error. *)
Theorem required_fields (d : VoyageFormData) :
  let r := zodResolver (fieldValues d) in
  let missing msg := Some {| type := "too_small"; message := msg |} in
  (departure d = "" -> errors r !! "departure" = missing "Departure is required")
  /\ (arrival d = "" -> errors r !! "arrival" = missing "Arrival is required")
  /\ (portOfLoading d = "" ->
      errors r !! "portOfLoading" = missing "Port of loading is required")
  /\ (portOfDischarge d = "" ->
      errors r !! "portOfDischarge" = missing "Port of discharge is required")
  /\ (vessel d = "" -> errors r !! "vessel" = missing "Vessel is required")
  /\ (unitTypes d = [] ->
      errors r !! "unitTypes" = missing "At least one unit type is required")
  /\ (departure d = "" \/ arrival d = "" \/ portOfLoading d = ""
      \/ portOfDischarge d = "" \/ vessel d = "" \/ unitTypes d = [] ->
      values r = None)
  /\ (values r = None /\ errors r <> ∅ \/ values r = Some d /\ errors r = ∅).
Proof.
  intros r missing. subst r missing. split_and!.
  1-5: intros E; rewrite errors_lookup; unfold ruleIssues; rewrite E;
       rewrite ?find_required_ne by discriminate;
       by rewrite find_required_empty.
  - intros E. rewrite errors_lookup. unfold ruleIssues. rewrite E.
    by rewrite !find_required_ne by discriminate.
  - intros E. rewrite zodResolver_typed.
    destruct (ruleIssues d) eqn:Ei; [|done].
    apply ruleIssues_nil in Ei. tauto.
  - rewrite zodResolver_typed. destruct (ruleIssues d) eqn:Ei.
    + by right.
    + left. split; [done|]. apply parseErrorSchema_nonempty.
Qed.

End SchemaFacts.

Lemma arrival_not_after_departure_witness :
  let d : Schema.VoyageFormData :=
    {| Schema.departure := "2025-01-02T10:00";
       Schema.arrival := "2025-01-01T10:00";
       Schema.portOfLoading := "Copenhagen";
       Schema.portOfDischarge := "Oslo";
       Schema.vessel := "v1";
       Schema.unitTypes := ["u1"] |} in
  Schema.errors (Schema.zodResolver (Schema.fieldValues d)) !! "arrival" =
    Some {| Schema.type := "custom";
            Schema.message := "Arrival date must be after departure date" |}.
Proof.
  intros d.
  apply (arrival_not_after_departure d 1735725600000 1735812000000);
    [reflexivity | reflexivity | lia].
Defined.

Lemma required_fields_witness :
  let d : Schema.VoyageFormData :=
    {| Schema.departure := "";
       Schema.arrival := "";
       Schema.portOfLoading := "";
       Schema.portOfDischarge := "Oslo";
       Schema.vessel := "v1";
       Schema.unitTypes := [] |} in
  let r := Schema.zodResolver (Schema.fieldValues d) in
  Schema.errors r !! "departure" =
    Some {| Schema.type := "too_small"; Schema.message := "Departure is required" |}
  /\ Schema.errors r !! "arrival" =
    Some {| Schema.type := "too_small"; Schema.message := "Arrival is required" |}
  /\ Schema.errors r !! "unitTypes" =
    Some {| Schema.type := "too_small";
            Schema.message := "At least one unit type is required" |}
  /\ Schema.values r = None.
Proof.
  intros d r.
  destruct (required_fields d) as (H1 & H2 & _ & _ & _ & H6 & H7 & _).
  split_and!; [apply H1 | apply H2 | apply H6 | apply H7; left]; reflexivity.
Defined.

(** ** The create endpoint *)

Section HandlerFacts.
Import Js CreateApi.
Context `{Prisma}.

Lemma handler_not_POST (req : NextApiRequest) (d : Db) :
  method req <> "POST" ->
  handler req d =
    {| db := d; console := [];
       response := {| statusCode := 405;
                      headers := {[ "Allow" := ["POST"] ]};
                      sent := Some (Text ("Method " +:+ method req +:+ " not allowed")) |};
       uncaught := None |}.
Proof.
  intros N. unfold handler.
  destruct (String.eqb_spec (method req) "POST"); [done|]. reflexivity.
Qed.

Lemma handler_POST_object (req : NextApiRequest) (d : Db)
    (fields : list (string * JsValue)) (ids : list JsValue) :
  method req = "POST" -> body req = JObject fields ->
  getField fields "unitTypes" = JArray ids ->
  handler req d =
    match voyage_create (createInput (body req) ids) d with
    | (inr createdVoyage, d') =>
        {| db := d'; console := [];
           response := {| statusCode := 201; headers := ∅;
                          sent := Some (JsonVoyage createdVoyage) |};
           uncaught := None |}
    | (inl e, d') =>
        {| db := d'; console := [("Error creating voyage:", Rejected e)];
           response :=
             {| statusCode := 500; headers := ∅;
                sent := Some (JsonValue
                          (JObject [("error", JString "Internal server error")])) |};
           uncaught := None |}
    end.
Proof.
  intros Em Eb Eu. unfold handler, create, createInput. rewrite Em, Eb. simpl.
  rewrite Eu. destruct (voyage_create _ d) as [[e|v] d']; reflexivity.
Qed.

Lemma handler_POST_not_array (req : NextApiRequest) (d : Db)
    (fields : list (string * JsValue)) :
  method req = "POST" -> body req = JObject fields ->
  (forall ids, getField fields "unitTypes" <> JArray ids) ->
  response (handler req d) =
    {| statusCode := 500; headers := ∅;
       sent := Some (JsonValue
                 (JObject [("error", JString "Internal server error")])) |}
  /\ console (handler req d) = [("Error creating voyage:", TypeError)]
  /\ db (handler req d) = d.
Proof.
  intros Em Eb Hu. unfold handler, create. rewrite Em, Eb. simpl.
  destruct (getField fields "unitTypes") eqn:Eu; try done.
  by destruct (Hu l).
Qed.

Lemma handler_POST_status (req : NextApiRequest) (d : Db) :
  method req = "POST" ->
  uncaught (handler req d) = Some TypeError
  \/ statusCode (response (handler req d)) = 201
  \/ statusCode (response (handler req d)) = 500.
Proof.
  intros Em. unfold handler. rewrite Em. simpl.
  destruct (body req); simpl; try (by left); right;
    repeat case_match; simpl; auto.
Qed.

(** C4. A request whose method is not POST is answered 405 with the
    header [Allow: POST] and a text body; a POST whose record the store
    creates is answered 201 with that record as JSON; a POST that the
    store rejects is answered 500 with the body
    [{ error: "Internal server error" }], the same for every cause, and
    the cause goes to the server log only. *)
Theorem handler_responses (req : NextApiRequest) (d : Db) :
  (method req <> "POST" ->
     response (handler req d) =
       {| statusCode := 405;
          headers := {[ "Allow" := ["POST"] ]};
          sent := Some (Text ("Method " +:+ method req +:+ " not allowed")) |}
     /\ db (handler req d) = d)
  /\ (forall fields ids v d',
        method req = "POST" -> body req = JObject fields ->
        getField fields "unitTypes" = JArray ids ->
        voyage_create (createInput (body req) ids) d = (inr v, d') ->
        response (handler req d) =
          {| statusCode := 201; headers := ∅; sent := Some (JsonVoyage v) |}
        /\ db (handler req d) = d')
  /\ (forall fields ids e d',
        method req = "POST" -> body req = JObject fields ->
        getField fields "unitTypes" = JArray ids ->
        voyage_create (createInput (body req) ids) d = (inl e, d') ->
        response (handler req d) =
          {| statusCode := 500; headers := ∅;
             sent := Some (JsonValue
                       (JObject [("error", JString "Internal server error")])) |}
        /\ console (handler req d) = [("Error creating voyage:", Rejected e)])
  /\ (forall fields,
        method req = "POST" -> body req = JObject fields ->
        (forall ids, getField fields "unitTypes" <> JArray ids) ->
        response (handler req d) =
          {| statusCode := 500; headers := ∅;
             sent := Some (JsonValue
                       (JObject [("error", JString "Internal server error")])) |}
        /\ console (handler req d) = [("Error creating voyage:", TypeError)]
        /\ db (handler req d) = d).
Proof.
  split_and!; [| | |apply handler_POST_not_array].
  - intros N. by rewrite handler_not_POST.
  - intros fields ids v d' Em Eb Eu Ec.
    rewrite (handler_POST_object req d fields ids) by done. by rewrite Ec.
  - intros fields ids e d' Em Eb Eu Ec.
    rewrite (handler_POST_object req d fields ids) by done. by rewrite Ec.
Qed.

(** C8. A POST is never validated by the handler: whatever the fields
    of the body hold, the record made of them goes to the store as it
    is, the store alone decides between 201 and 500, and no status of
    the 400 class is answered; what the store accepts is persisted. *)
Theorem no_server_validation (req : NextApiRequest) (d : Db)
    (fields : list (string * JsValue)) (ids : list JsValue) :
  method req = "POST" -> body req = JObject fields ->
  getField fields "unitTypes" = JArray ids ->
  db (handler req d) = (voyage_create (createInput (body req) ids) d).2
  /\ statusCode (response (handler req d)) =
       match (voyage_create (createInput (body req) ids) d).1 with
       | inr _ => 201
       | inl _ => 500
       end
  /\ ~ (400 <= statusCode (response (handler req d)) < 500)%Z
  /\ (forall v, (voyage_create (createInput (body req) ids) d).1 = inr v ->
                sent (response (handler req d)) = Some (JsonVoyage v)).
Proof.
  intros Em Eb Eu.
  rewrite (handler_POST_object req d fields ids) by done.
  destruct (voyage_create _ d) as [[e|v] d']; simpl;
    split_and!; try done; try lia; congruence.
Qed.

End HandlerFacts.

Section HandlerWitnesses.
Import Js CreateApi MemoryDb.

Lemma handler_responses_witness :
  let store := {| vessels := ["v1"]; unitTypes := ["u1"]; voyages := [] |} in
  let fields v :=
    [("departure", JString "2025-01-01T10:00:00.000Z");
     ("arrival", JString "2025-01-02T10:00:00.000Z");
     ("portOfLoading", JString "Copenhagen");
     ("portOfDischarge", JString "Oslo");
     ("vessel", JString v);
     ("unitTypes", JArray [JString "u1"])] in
  statusCode (response (handler (H := prisma) {| method := "GET"; body := JUndefined |} store)) = 405
  /\ statusCode (response (handler (H := prisma) {| method := "POST"; body := JObject (fields "v1") |}
                                   store)) = 201
  /\ statusCode (response (handler (H := prisma) {| method := "POST"; body := JObject (fields "v9") |}
                                   store)) = 500.
Proof.
  intros store fields. split_and!.
  - destruct (handler_responses (H := prisma) {| method := "GET"; body := JUndefined |} store)
      as ([-> _] & _ & _); [discriminate | reflexivity].
  - destruct (handler_responses (H := prisma) {| method := "POST"; body := JObject (fields "v1") |}
                store) as (_ & H201 & _).
    edestruct H201 as [-> _]; reflexivity.
  - destruct (handler_responses (H := prisma) {| method := "POST"; body := JObject (fields "v9") |}
                store) as (_ & _ & H500 & _).
    edestruct H500 as [-> _]; reflexivity.
Defined.

(** A body whose arrival is before its departure and whose loading port
    is empty is stored. *)
Lemma no_server_validation_witness :
  let store := {| vessels := ["v1"]; unitTypes := ["u1"]; voyages := [] |} in
  let fields :=
    [("departure", JString "2025-01-02T10:00:00.000Z");
     ("arrival", JString "2025-01-01T10:00:00.000Z");
     ("portOfLoading", JString "");
     ("portOfDischarge", JString "Oslo");
     ("vessel", JString "v1");
     ("unitTypes", JArray [JString "u1"])] in
  let req := {| method := "POST"; body := JObject fields |} in
  Date_gt (IsoDate.parse "2025-01-01T10:00:00.000Z")
          (IsoDate.parse "2025-01-02T10:00:00.000Z") = false
  /\ statusCode (response (handler (H := prisma) req store)) = 201
  /\ voyages (db (handler (H := prisma) req store)) =
       [ {| id := 0; data := createInput (JObject fields) [JString "u1"] |} ].
Proof.
  intros store fields req.
  destruct (no_server_validation (H := prisma) req store fields [JString "u1"])
    as (Hdb & Hst & _); [reflexivity..|].
  split_and!; [reflexivity | by rewrite Hst | by rewrite Hdb].
Defined.

End HandlerWitnesses.

(** ** Submission *)

Section ResolverFacts.
Import Js Schema.
Context `{JsDate}.

Lemma field_OK {A B : Type} (acc : Zod.Parse (A -> B)) (r : Zod.Parse A) (b : B) :
  (Zod.field acc r).1 = Zod.OK b ->
  exists f a, acc.1 = Zod.OK f /\ r.1 = Zod.OK a /\ b = f a.
Proof.
  unfold Zod.field. simpl.
  destruct acc.1 as [f|f|], r.1 as [a|a|]; try discriminate.
  intros [= <-]. by exists f, a.
Qed.

Lemma string_min_OK n msg p (i : option string) (s : string) :
  (Zod.string_min n msg p i).1 = Zod.OK s -> i = Some s.
Proof.
  unfold Zod.string_min. destruct i as [s'|]; [|discriminate].
  case_match; [discriminate|]. by intros [= ->].
Qed.

Lemma array_nonempty_OK msg p (i : option (list string)) (l : list string) :
  (Zod.array_nonempty msg p i).1 = Zod.OK l -> i = Some l.
Proof.
  unfold Zod.array_nonempty. destruct i as [l'|]; [|discriminate].
  case_match; [discriminate|]. by intros [= ->].
Qed.

Lemma refine_OK {A : Type} (inner : Zod.Parse A) check msg p (v : A) :
  (Zod.refine inner check msg p).1 = Zod.OK v -> inner.1 = Zod.OK v.
Proof.
  unfold Zod.refine. destruct inner.1 eqn:E; try case_match; simpl;
    rewrite ?E; congruence.
Qed.

(** The resolver yields values only for field values that are all set,
    and then yields them unchanged. *)
Lemma zodResolver_valid (fv : FieldValues) (data : VoyageFormData) :
  values (zodResolver fv) = Some data -> fv = fieldValues data.
Proof.
  unfold zodResolver, safeParse, Zod.handleResult.
  destruct (voyageSchema fv).1 as [v|v|] eqn:E; try discriminate.
  intros [= ->]. apply refine_OK in E. unfold voyageObject in E.
  apply field_OK in E as (f6 & uts & E & Huts & ->).
  apply field_OK in E as (f5 & ves & E & Hves & ->).
  apply field_OK in E as (f4 & pod & E & Hpod & ->).
  apply field_OK in E as (f3 & pol & E & Hpol & ->).
  apply field_OK in E as (f2 & arr & E & Harr & ->).
  apply field_OK in E as (f1 & dep & E & Hdep & ->).
  injection E as <-.
  apply string_min_OK in Hdep, Harr, Hpol, Hpod, Hves.
  apply array_nonempty_OK in Huts.
  destruct fv; simpl in *. by subst.
Qed.

Lemma valid_draft (fv : FieldValues) (data : VoyageFormData) :
  values (zodResolver fv) = Some data ->
  fv = fieldValues data /\ errors (zodResolver fv) = ∅
  /\ exists ta td, Date_new (arrival data) = Some ta
                   /\ Date_new (departure data) = Some td /\ (td < ta)%Z.
Proof.
  intros E. pose proof (zodResolver_valid _ _ E) as ->.
  rewrite zodResolver_typed in E |- *.
  destruct (ruleIssues data) eqn:Ei; [|discriminate].
  split_and!; [done..|].
  apply ruleIssues_nil in Ei as (_ & _ & _ & _ & _ & _ & Ei).
  unfold arrivalAfterDeparture, Date_gt in Ei.
  destruct (Date_new (arrival data)) as [ta|]; [|discriminate].
  destruct (Date_new (departure data)) as [td|]; [|discriminate].
  exists ta, td. split_and!; [done..|]. by apply Z.ltb_lt.
Qed.

End ResolverFacts.

Section SubmissionFacts.
Import Js CreateVoyageForm.
Context `{JsDate}.
Variable fetch : Request -> option Response.

(** The request that a submission of the validated [data] sends from the
    state [st], the two dates being [dep] and [arr]. *)
Lemma handleSubmit_valid (st : State) (data : Schema.VoyageFormData) :
  Schema.values (Schema.zodResolver (formValues st)) = Some data ->
  exists ta td,
    Date_new (Schema.arrival data) = Some ta
    /\ Date_new (Schema.departure data) = Some td
    /\ handleSubmit fetch st =
         (setErrors ∅ st,
          Validate (formValues st)
            :: Normalize (isoOfTime td) (isoOfTime ta)
            :: createVoyageMutation fetch
                 {| Schema.departure := isoOfTime td;
                    Schema.arrival := isoOfTime ta;
                    Schema.portOfLoading := Schema.portOfLoading data;
                    Schema.portOfDischarge := Schema.portOfDischarge data;
                    Schema.vessel := selectedVessel st;
                    Schema.unitTypes := MultiSelect.value <$> selectedUnitTypes st |},
          None).
Proof.
  intros E. destruct (valid_draft _ _ E) as (_ & Herr & ta & td & Ea & Ed & _).
  exists ta, td. split_and!; [done..|].
  unfold handleSubmit. rewrite E, Herr.
  rewrite bool_decide_eq_true_2 by done.
  unfold onSubmit. by rewrite Ea, Ed.
Qed.




(** C7. When the endpoint answers a valid submission with a status
    that is not a success status, the success callback is not invoked,
    the failure is written to the console as the last step, no field
    error is set, and the field values and the selection state are the
    ones before the submission. *)
Theorem submit_refused (st : State) (data : Schema.VoyageFormData)
    (r : Response) :
  Schema.values (Schema.zodResolver (formValues st)) = Some data ->
  (forall req, fetch req = Some r) -> ok r = false ->
  callbackCalls (handleSubmit fetch st).1.2 = 0%nat
  /\ last (handleSubmit fetch st).1.2 =
       Some (ConsoleError "Error creating voyage:"
               (FailedToCreate (status r) (statusText r)))
  /\ errors (handleSubmit fetch st).1.1 = ∅
  /\ formValues (handleSubmit fetch st).1.1 = formValues st
  /\ selectedVessel (handleSubmit fetch st).1.1 = selectedVessel st
  /\ selectedUnitTypes (handleSubmit fetch st).1.1 = selectedUnitTypes st
  /\ portOfLoading (handleSubmit fetch st).1.1 = portOfLoading st
  /\ portOfDischarge (handleSubmit fetch st).1.1 = portOfDischarge st.
Proof.
  intros E Hf Hok.
  destruct (handleSubmit_valid st data E) as (ta & td & Ea & Ed & ->).
  unfold createVoyageMutation, mutationFn. rewrite Hf, Hok. simpl.
  split_and!; reflexivity.
Qed.

End SubmissionFacts.

Section SubmissionWitnesses.
Import Js CreateVoyageForm.



Lemma submit_refused_witness :
  let r := {| status := 500; statusText := "Internal Server Error";
              json := Some (JObject [("error", JString "Internal server error")]) |} in
  callbackCalls (handleSubmit (always r) filledForm).1.2 = 0%nat
  /\ formValues (handleSubmit (always r) filledForm).1.1 = formValues filledForm.
Proof.
  intros r.
  destruct (submit_refused (always r) filledForm filledData r)
    as (H0 & _ & _ & Hfv & _);
    [vm_compute; reflexivity | reflexivity | reflexivity |].
  split; [exact H0 | exact Hfv].
Defined.

End SubmissionWitnesses.

(** * Further properties *)

(** ** The list of offered unit types *)

Section MultiSelectRenderFacts.
Import JsString MultiSelect MultiSelectRender.
Context `{Lowering}.

Lemma existsb_value (selected : list UnitType) (u : UnitType) :
  existsb (fun s => String.eqb (value s) (value u)) selected = true <->
  value u ∈ value <$> selected.
Proof.
  rewrite existsb_exists, list_elem_of_fmap. split.
  - intros (s & Hs & E). apply String.eqb_eq in E.
    exists s. split; [done|]. by apply list_elem_of_In.
  - intros (s & E & Hs). exists s. split; [by apply list_elem_of_In|].
    by apply String.eqb_eq.
Qed.

Lemma includes_empty (s : string) : includes s "" = true.
Proof. by destruct s. Qed.

Lemma elem_of_filteredUnitTypes unitTypes selected inputValue (u : UnitType) :
  u ∈ filteredUnitTypes unitTypes selected inputValue <->
  u ∈ unitTypes /\ (value u ∉ value <$> selected)
  /\ includes (toLowerCase (label u)) (toLowerCase inputValue) = true.
Proof.
  unfold filteredUnitTypes.
  rewrite <- (existsb_value selected u).
  rewrite !list_elem_of_In, filter_In, andb_true_iff, negb_true_iff.
  destruct (existsb _ selected); intuition congruence.
Qed.
Lemma handleUnselect_absent (u : UnitType) (l : list UnitType) :
  value u ∉ value <$> l -> handleUnselect u l = l.
Proof.
  unfold handleUnselect. induction l as [|x l IH]; [done|].
  rewrite fmap_cons, not_elem_of_cons. intros [Hx Hl].
  rewrite filter_cons_True by auto. by rewrite IH.
Qed.

(** X1. An option offered in the list carries an identifier that is not
    selected, so a mouse-down on it always appends it to the selection;
    once appended it is offered no more, whatever the search input. *)
Theorem offered_then_selected (unitTypes selected : list UnitType)
    (st : State) (u : UnitType) (inputValue' : string) :
  u ∈ filteredUnitTypes unitTypes selected (inputValue st) ->
  step st selected (Select u) = selected ++ [u]
  /\ u ∉ filteredUnitTypes unitTypes (step st selected (Select u)) inputValue'.
Proof.
  intros Hu. apply elem_of_filteredUnitTypes in Hu as (_ & Hfresh & _).
  rewrite step_Select_absent by done. split; [done|].
  rewrite elem_of_filteredUnitTypes. intros (_ & Hn & _). apply Hn.
  rewrite fmap_app. apply elem_of_app. right. apply list_elem_of_here.
Qed.

(** X2. With an empty search input the list offers exactly the options
    whose identifier is not selected, in the order of the options. *)
Theorem offered_with_empty_input (unitTypes selected : list UnitType) :
  filteredUnitTypes unitTypes selected "" =
    filter (fun u => value u ∉ value <$> selected) unitTypes.
Proof.
  unfold filteredUnitTypes.
  induction unitTypes as [|u rest IH]; [done|]. simpl.
  rewrite IH, toLowerCase_empty, includes_empty, andb_true_r.
  rewrite filter_cons.
  destruct (existsb _ selected) eqn:E; simpl.
  - apply existsb_value in E. by rewrite decide_False by auto.
  - rewrite decide_True; [done|]. intros Hin. apply existsb_value in Hin.
    congruence.
Qed.

(** X3. Selecting a unit type that was not selected and then pressing
    Backspace (or Delete) in the empty search input, or clicking its
    badge, gives back the selection from before. *)
Theorem select_then_remove (st st' : State) (selected : list UnitType)
    (u : UnitType) :
  value u ∉ value <$> selected ->
  step st' (step st selected (Select u)) (KeyDown "Backspace" (Some "")) = selected
  /\ step st' (step st selected (Select u)) (KeyDown "Delete" (Some "")) = selected
  /\ step st' (step st selected (Select u)) (Unselect u) = selected.
Proof.
  intros Hfresh. rewrite step_Select_absent by done. split_and!.
  - apply pop_snoc.
  - apply pop_snoc.
  - simpl. rewrite <- (handleUnselect_absent u selected) at 2 by done.
    unfold handleUnselect. rewrite filter_app, filter_cons_False by auto.
    by rewrite filter_nil, app_nil_r.
Qed.

(** X4. Unselecting works by identifier: it removes nothing when the
    identifier is not selected, doing it twice is doing it once, and two
    unselections give the same list in either order. *)
Theorem unselect_algebra (st : State) (selected : list UnitType)
    (u v : UnitType) :
  value u ∉ value <$> selected ->
  step st selected (Unselect u) = selected
  /\ (forall l, step st (step st l (Unselect v)) (Unselect v) =
                step st l (Unselect v))
  /\ (forall l, step st (step st l (Unselect u)) (Unselect v) =
                step st (step st l (Unselect v)) (Unselect u)).
Proof.
  intros Hfresh. simpl. split_and!.
  - by apply handleUnselect_absent.
  - intros l. apply handleUnselect_absent.
    intros (x & E & Hx)%list_elem_of_fmap.
    by apply list_elem_of_filter in Hx as [? _].
  - intros l. unfold handleUnselect. by rewrite !list_filter_filter, (list_filter_iff _ (fun x =>
      value x <> value u /\ value x <> value v)) by tauto.
Qed.

Lemma step_canRaise_subset unitTypes selected st e :
  canRaise unitTypes selected st e ->
  (forall x, x ∈ selected -> x ∈ unitTypes) ->
  forall x, x ∈ step st selected e -> x ∈ unitTypes.
Proof.
  intros He Hsub x. destruct e as [u|u|key input].
  - destruct He as [_ Hu]. rewrite step_Select_absent.
    + intros [Hx| ->%list_elem_of_singleton]%elem_of_app; [by apply Hsub|].
      by apply elem_of_filteredUnitTypes in Hu as (? & _).
    + by apply elem_of_filteredUnitTypes in Hu as (_ & ? & _).
  - simpl. intros Hx. apply Hsub. eapply elem_of_sublist; [done|].
    apply sublist_filter.
  - simpl. unfold handleKeyDown. repeat case_match; simpl; try apply Hsub.
    intros Hx. apply Hsub. eapply elem_of_sublist; [done|]. apply pop_sublist.
Qed.

(** X5. Whatever the user does with the widget, starting from the empty
    selection: every selected entry is one of the options, no identifier
    is selected twice, and there are never more selected entries than
    options. *)
Theorem reachable_selection (unitTypes selected : list UnitType) :
  reachable unitTypes selected ->
  (forall x, x ∈ selected -> x ∈ unitTypes)
  /\ duplicateFree selected
  /\ (length selected <= length unitTypes)%nat.
Proof.
  intros Hr.
  assert (Hinv : (forall x, x ∈ selected -> x ∈ unitTypes) /\ duplicateFree selected).
  { induction Hr as [|selected st e _ [IHs IHd] He].
    - split; [by intros x ?%not_elem_of_nil|apply NoDup_nil_2].
    - split; [by eapply step_canRaise_subset|by apply step_duplicateFree]. }
  destruct Hinv as [Hsub Hnd]. split_and!; [done..|].
  rewrite <- (length_fmap value selected), <- (length_fmap value unitTypes).
  apply submseteq_length, NoDup_submseteq; [done|].
  intros i (x & -> & Hx)%list_elem_of_fmap. by apply list_elem_of_fmap_2, Hsub.
Qed.

(** X6. When every option is selected nothing is offered and the list
    is not rendered, whether the widget is open or not and whatever the
    search input. *)
Theorem all_selected_hides_list (unitTypes selected : list UnitType)
    (st : State) :
  (forall u, u ∈ unitTypes -> value u ∈ value <$> selected) ->
  filteredUnitTypes unitTypes selected (inputValue st) = []
  /\ listShown unitTypes selected st = false.
Proof.
  intros Hall.
  assert (E : filteredUnitTypes unitTypes selected (inputValue st) = []).
  { apply elem_of_nil_inv. intros u Hu.
    apply elem_of_filteredUnitTypes in Hu as (Hu & Hn & _). by apply Hn, Hall. }
  split; [done|]. unfold listShown. rewrite E. simpl. apply andb_false_r.
Qed.

End MultiSelectRenderFacts.

Section MultiSelectRenderWitnesses.
Import JsString MultiSelect MultiSelectRender.

Lemma offered_then_selected_witness :
  let trailer := {| value := "u1"; label := "Trailer" |} in
  let container := {| value := "u2"; label := "Container" |} in
  let typing := {| inputValue := "TRA"; isOpen := true |} in
  step typing [container] (Select trailer) = [container; trailer]
  /\ trailer ∉ filteredUnitTypes [trailer; container] [container; trailer] "".
Proof.
  intros trailer container typing.
  assert (Hin : trailer ∈ filteredUnitTypes [trailer; container] [container]
                            (inputValue typing)).
  { vm_compute. apply list_elem_of_here. }
  destruct (offered_then_selected [trailer; container] [container]
              typing trailer "" Hin) as [H1 H2].
  split; [exact H1|]. by rewrite H1 in H2.
Defined.

Lemma select_then_remove_witness :
  let trailer := {| value := "u1"; label := "Trailer" |} in
  let container := {| value := "u2"; label := "Container" |} in
  let typing s := {| inputValue := s; isOpen := true |} in
  step (typing "") (step (typing "tr") [container] (Select trailer))
       (KeyDown "Backspace" (Some "")) = [container].
Proof.
  intros trailer container typing.
  apply (select_then_remove (typing "tr") (typing "") [container] trailer).
  vm_compute. intros Hin. apply list_elem_of_singleton in Hin. discriminate.
Defined.

Lemma unselect_algebra_witness :
  let trailer := {| value := "u1"; label := "Trailer" |} in
  let container := {| value := "u2"; label := "Container" |} in
  let typing := {| inputValue := ""; isOpen := true |} in
  step typing [container] (Unselect trailer) = [container].
Proof.
  intros trailer container typing.
  apply (unselect_algebra typing [container] trailer container).
  vm_compute. intros Hin. apply list_elem_of_singleton in Hin. discriminate.
Defined.

Lemma reachable_selection_witness :
  let trailer := {| value := "u1"; label := "Trailer" |} in
  let container := {| value := "u2"; label := "Container" |} in
  let typing := {| inputValue := ""; isOpen := true |} in
  (length (step typing [] (Select trailer)) <= length [trailer; container])%nat.
Proof.
  intros trailer container typing.
  apply (reachable_selection [trailer; container]).
  apply reachable_step; [apply reachable_empty|].
  split; [reflexivity|]. vm_compute. apply list_elem_of_here.
Defined.

Lemma all_selected_hides_list_witness :
  let trailer := {| value := "u1"; label := "Trailer" |} in
  let container := {| value := "u2"; label := "Container" |} in
  let typing := {| inputValue := ""; isOpen := true |} in
  listShown [trailer; container] [container; trailer] typing = false.
Proof.
  intros trailer container typing.
  apply (all_selected_hides_list [trailer; container] [container; trailer] typing).
  intros u Hu. apply elem_of_cons in Hu as [->|Hu].
  - vm_compute. apply list_elem_of_further, list_elem_of_here.
  - apply list_elem_of_singleton in Hu as ->. vm_compute. apply list_elem_of_here.
Defined.

End MultiSelectRenderWitnesses.

(** ** The label of the dropdown *)

Section DropdownFacts.
Import Dropdown DropdownRender.

Lemma find_value_absent (items : list Item) (selectedItem : string) :
  selectedItem ∉ value <$> items ->
  List.find (fun item => String.eqb (value item) selectedItem) items = None.
Proof.
  induction items as [|i rest IH]; [done|].
  rewrite fmap_cons, not_elem_of_cons. intros [N Hrest]. simpl.
  destruct (String.eqb_spec (value i) selectedItem); [congruence|]. by apply IH.
Qed.

Lemma find_value_first (before after : list Item) (item : Item) :
  value item ∉ value <$> before ->
  List.find (fun i => String.eqb (value i) (value item)) (before ++ item :: after)
    = Some item.
Proof.
  induction before as [|i before IH]; simpl.
  - intros _. by rewrite String.eqb_refl.
  - rewrite not_elem_of_cons. intros [N Hb].
    destruct (String.eqb_spec (value i) (value item)); [congruence|]. by apply IH.
Qed.

(** X7. With nothing selected and items present, the effect selects the
    first item and the button then shows its label.  A selection that is
    not empty is never replaced by the effect, whatever the items are and
    whether it is one of them or not; the button shows the label of the
    first item that carries the selected value; and a selected value that
    no item carries (no items loaded yet, say) shows "Select an option". *)
Theorem dropdown_label (first : Item) (rest items : list Item)
    (chosen unknown : string) :
  chosen <> "" -> unknown ∉ value <$> items ->
  selectedItemLabel (first :: rest) (afterEffect (first :: rest) "") =
    (if decide (label first = "") then "Select an option" else label first)
  /\ (forall items', afterEffect items' chosen = chosen)
  /\ selectedItemLabel items unknown = "Select an option"
  /\ afterEffect [] "" = "" /\ selectedItemLabel [] "" = "Select an option"
  /\ (forall before item after,
        value item = chosen -> chosen ∉ value <$> before ->
        afterEffect (before ++ item :: after) chosen = value item
        /\ selectedItemLabel (before ++ item :: after) chosen =
             (if decide (label item = "") then "Select an option" else label item)).
Proof.
  intros Hsel Habs.
  assert (Hkeep : forall items', afterEffect items' chosen = chosen).
  { intros items'. unfold afterEffect, autoSelect. destruct items'; [done|].
    by destruct (String.eqb_spec chosen ""). }
  split_and!; try done.
  - unfold afterEffect, selectedItemLabel. simpl. rewrite String.eqb_refl.
    destruct (String.eqb_spec (label first) ""); by case_decide.
  - unfold selectedItemLabel. by rewrite find_value_absent.
  - intros before item after <- Hb. split; [apply Hkeep|].
    unfold selectedItemLabel. rewrite find_value_first by done.
    destruct (String.eqb_spec (label item) ""); by case_decide.
Qed.

Lemma dropdown_label_witness :
  let copenhagen := {| value := "Copenhagen"; label := "Copenhagen" |} in
  let oslo := {| value := "Oslo"; label := "Oslo" |} in
  selectedItemLabel [copenhagen; oslo] (afterEffect [copenhagen; oslo] "") = "Copenhagen"
  /\ selectedItemLabel [copenhagen; oslo] "v1" = "Select an option"
  /\ afterEffect [copenhagen; oslo] "Oslo" = "Oslo"
  /\ selectedItemLabel [copenhagen; oslo] "Oslo" = "Oslo".
Proof.
  intros copenhagen oslo.
  destruct (dropdown_label copenhagen [oslo] [copenhagen; oslo] "Oslo" "v1")
    as (H1 & H2 & H3 & _ & _ & H6).
  - discriminate.
  - vm_compute. intros Hin.
    apply elem_of_cons in Hin as [Hin|Hin]; [discriminate|].
    apply list_elem_of_singleton in Hin. discriminate.
  - destruct (H6 [copenhagen] oslo []) as [_ H7].
    + reflexivity.
    + vm_compute. intros Hin. apply list_elem_of_singleton in Hin. discriminate.
    + split_and!; [exact H1 | exact H3 | exact (H2 [copenhagen; oslo]) | exact H7].
Defined.

End DropdownFacts.

(** ** Sessions with the creation form *)

Section FormSessionFacts.
Import Js CreateVoyageForm FormSession.

(** X8. The effects come to rest: after the two commits that follow an
    update, one more commit changes nothing, whatever the state and the
    vessel options. *)
Theorem settle_stable (vesselOptions : list Dropdown.Item) (st : State) :
  commitEffects vesselOptions (settle vesselOptions st) = settle vesselOptions st.
Proof.
  destruct st as [sv su p d [fd fa fp fpd fv fu] e].
  destruct vesselOptions as [|[v l] rest];
    destruct sv as [|? ?], p as [|? ?]; try destruct v as [|? ?];
    destruct fd, fa, fpd; vm_compute; reflexivity.
Qed.

Lemma settle_spec (vesselOptions : list Dropdown.Item) sv su p d dep arr fv fu e :
  p <> "" ->
  settle vesselOptions
    {| selectedVessel := sv; selectedUnitTypes := su;
       portOfLoading := p; portOfDischarge := d;
       formValues := Schema.Build_VoyageFields (Some dep) (Some arr) (Some p)
                       (Some d) fv fu;
       errors := e |} =
    {| selectedVessel := DropdownRender.afterEffect vesselOptions sv;
       selectedUnitTypes := su;
       portOfLoading := p; portOfDischarge := d;
       formValues :=
         Schema.Build_VoyageFields (Some dep) (Some arr) (Some p) (Some d)
           (Some (DropdownRender.afterEffect vesselOptions sv))
           (Some (MultiSelect.value <$> su));
       errors := e |}.
Proof.
  intros Hp.
  destruct vesselOptions as [|[v l] rest];
    destruct sv as [|? ?], p as [|? ?]; try destruct v as [|? ?];
    try done; vm_compute; reflexivity.
Qed.

Lemma afterEffect_chosen (vesselOptions : list Dropdown.Item) (sv : string) :
  vesselOptions <> [] ->
  (forall item, item ∈ vesselOptions -> Dropdown.value item <> "") ->
  DropdownRender.afterEffect vesselOptions sv <> "".
Proof.
  intros Hne Hval. unfold DropdownRender.afterEffect, Dropdown.autoSelect.
  destruct vesselOptions as [|first rest]; [done|].
  destruct (String.eqb_spec sv ""); [|done].
  apply Hval, list_elem_of_here.
Qed.

Section WithEndpoint.
Context `{JsDate}.
Variable fetch : Request -> option Response.
Variable vesselOptions : list Dropdown.Item.

Lemma handleSubmit_state (st : State) :
  (handleSubmit fetch st).1.1 =
    setErrors (Schema.errors (Schema.zodResolver (formValues st))) st.
Proof.
  unfold handleSubmit. destruct (Schema.values _); [|done].
  case_bool_decide; [|done]. by destruct (onSubmit fetch st _).
Qed.

Lemma mount_invariant : sessionInvariant vesselOptions (mount vesselOptions).
Proof.
  assert (E : mount vesselOptions = settle vesselOptions
    {| selectedVessel := ""; selectedUnitTypes := [];
       portOfLoading := "Copenhagen"; portOfDischarge := "Oslo";
       formValues := Schema.Build_VoyageFields (Some "") (Some "")
                       (Some "Copenhagen") (Some "Oslo") None None;
       errors := ∅ |}).
  { destruct vesselOptions as [|[[|? ?] l] rest]; vm_compute; reflexivity. }
  rewrite E, settle_spec by done. split_and!.
  - by left.
  - by exists "", "".
  - apply NoDup_nil_2.
  - simpl. apply afterEffect_chosen.
Qed.

Lemma dispatch_invariant (ev : UserEvent) (st : State) :
  canRaise vesselOptions ev -> sessionInvariant vesselOptions st ->
  sessionInvariant vesselOptions (dispatch fetch vesselOptions ev st).
Proof.
  intros Hev (Hp & (dep & arr & Hm) & Hd & _). unfold dispatch.
  assert (Hne : portOfLoading st <> "") by (destruct Hp as [[-> _]|[-> _]]; done).
  destruct st as [sv su p d fvs e]. simpl in *. subst fvs.
  assert (Hgoal : forall sv' su' p' d' dep' arr' fv' fu' e',
    (p' = "Copenhagen" /\ d' = "Oslo" \/ p' = "Oslo" /\ d' = "Copenhagen") ->
    MultiSelect.duplicateFree su' ->
    sessionInvariant vesselOptions (settle vesselOptions
      {| selectedVessel := sv'; selectedUnitTypes := su';
         portOfLoading := p'; portOfDischarge := d';
         formValues := Schema.Build_VoyageFields (Some dep') (Some arr')
                         (Some p') (Some d') fv' fu';
         errors := e' |})).
  { intros sv' su' p' d' dep' arr' fv' fu' e' Hp' Hd'.
    rewrite settle_spec by (destruct Hp' as [[-> _]|[-> _]]; done).
    split_and!; [done|by exists dep', arr'|done|]. simpl. apply afterEffect_chosen. }
  destruct ev as [s|s|item|item|ms ev|]; simpl.
  - by apply Hgoal.
  - by apply Hgoal.
  - simpl in Hev. unfold portItems in Hev.
    apply elem_of_cons in Hev as [->|Hev];
      [|apply list_elem_of_singleton in Hev as ->]; apply Hgoal; auto.
  - by apply Hgoal.
  - apply Hgoal; [done|]. by apply step_duplicateFree.
  - rewrite handleSubmit_state. by apply Hgoal.
Qed.

Lemma session_invariant (events : list UserEvent) :
  Forall (canRaise vesselOptions) events ->
  sessionInvariant vesselOptions (session fetch vesselOptions events).
Proof.
  unfold session. generalize (mount vesselOptions), mount_invariant.
  induction events as [|ev events IH]; intros st Hst Hev; [done|].
  apply Forall_cons in Hev as [Hev Hevs]. simpl.
  apply IH; [|done]. by apply dispatch_invariant.
Qed.

Lemma find_issue_ne (c name msg k : string) :
  name <> k ->
  List.find (Schema.filedUnder k) (Zod.addIssue c [name] msg) = None.
Proof.
  intros N. simpl. unfold Schema.filedUnder at 1. simpl.
  by destruct (String.eqb_spec name k).
Qed.

(** X9. In every state that the user can bring the mounted form into:
    the two ports are "Copenhagen" and "Oslo" one way or the other, the
    form values mirror the selection state, no unit type is selected
    twice, and, when vessels are loaded and their values are not empty,
    a vessel is selected. *)
Theorem session_state (events : list UserEvent) :
  Forall (canRaise vesselOptions) events ->
  paired (session fetch vesselOptions events)
  /\ mirrored (session fetch vesselOptions events)
  /\ MultiSelect.duplicateFree
       (selectedUnitTypes (session fetch vesselOptions events))
  /\ (vesselOptions <> [] ->
      (forall item, item ∈ vesselOptions -> Dropdown.value item <> "") ->
      selectedVessel (session fetch vesselOptions events) <> "").
Proof. apply session_invariant. Qed.

Lemma session_typed (events : list UserEvent) :
  Forall (canRaise vesselOptions) events ->
  exists d : Schema.VoyageFormData,
    formValues (session fetch vesselOptions events) = Schema.fieldValues d
    /\ Schema.portOfLoading d <> "" /\ Schema.portOfDischarge d <> ""
    /\ Schema.vessel d = selectedVessel (session fetch vesselOptions events)
    /\ Schema.unitTypes d =
         MultiSelect.value <$> selectedUnitTypes (session fetch vesselOptions events).
Proof.
  intros Hev.
  destruct (session_invariant events Hev) as (Hp & (dep & arr & Hm) & _).
  eexists (Schema.Build_VoyageFields dep arr _ _ _ _).
  split; [exact Hm|]. simpl.
  split_and!; try done;
    destruct Hp as [[E1 E2]|[E1 E2]]; rewrite ?E1, ?E2; done.
Qed.

(** X10. Submitting from such a state never reports a missing port of
    loading or port of discharge; it reports a missing vessel only while
    no vessel is selected, and a missing unit type exactly when none is
    selected. *)
Theorem session_submit_errors (events : list UserEvent) :
  Forall (canRaise vesselOptions) events ->
  let st := session fetch vesselOptions events in
  let reported := errors (handleSubmit fetch st).1.1 in
  reported !! "portOfLoading" = None
  /\ reported !! "portOfDischarge" = None
  /\ (selectedVessel st <> "" -> reported !! "vessel" = None)
  /\ (reported !! "unitTypes" = None <-> selectedUnitTypes st <> []).
Proof.
  intros Hev st reported. subst reported.
  destruct (session_typed events Hev) as (d & Hfv & Hpl & Hpd & Hv & Hu).
  fold st in Hfv, Hv, Hu. rewrite handleSubmit_state. simpl. rewrite Hfv.
  rewrite !errors_lookup. unfold Schema.ruleIssues, Schema.ordering.
  assert (Hord : forall k, k <> "arrival" ->
    List.find (Schema.filedUnder k)
      (if Schema.arrivalAfterDeparture d then []
       else Zod.addIssue "custom" ["arrival"]
              "Arrival date must be after departure date") = None).
  { intros k Hk. destruct (Schema.arrivalAfterDeparture d); [done|].
    apply find_issue_ne. congruence. }
  split_and!.
  - do 2 (rewrite find_required_ne by discriminate).
    rewrite (required_filled (Schema.portOfLoading d)) by done. simpl app.
    do 2 (rewrite find_required_ne by discriminate).
    rewrite find_atLeastOne_ne by discriminate. by rewrite Hord.
  - do 3 (rewrite find_required_ne by discriminate).
    rewrite (required_filled (Schema.portOfDischarge d)) by done. simpl app.
    rewrite find_required_ne by discriminate.
    rewrite find_atLeastOne_ne by discriminate. by rewrite Hord.
  - intros Hsv. do 4 (rewrite find_required_ne by discriminate).
    rewrite (required_filled (Schema.vessel d)) by congruence. simpl app.
    rewrite find_atLeastOne_ne by discriminate. by rewrite Hord.
  - do 5 (rewrite find_required_ne by discriminate).
    unfold Schema.atLeastOne. rewrite Hu.
    destruct (selectedUnitTypes st) as [|u us]; simpl.
    + by split.
    + rewrite Hord by done. by split.
Qed.


Lemma field_sound {A B : Type} (acc : Zod.Parse (A -> B)) (r : Zod.Parse A) :
  ((exists f, acc.1 = Zod.OK f) \/ acc.2 <> []) ->
  ((exists a, r.1 = Zod.OK a) \/ r.2 <> []) ->
  (exists b, (Zod.field acc r).1 = Zod.OK b) \/ (Zod.field acc r).2 <> [].
Proof.
  unfold Zod.field. simpl. intros [[f ->]|Ha] [[a ->]|Hr].
  - left. by eexists.
  - right. intros [_ ?]%app_eq_nil. done.
  - right. intros [? _]%app_eq_nil. done.
  - right. intros [? _]%app_eq_nil. done.
Qed.

Lemma string_min_sound n msg p (i : option string) :
  (exists s, (Zod.string_min n msg p i).1 = Zod.OK s)
  \/ (Zod.string_min n msg p i).2 <> [].
Proof.
  unfold Zod.string_min. destruct i as [s|]; [|by right].
  case_match; [by right|]. left. by eexists.
Qed.

Lemma array_nonempty_sound msg p (i : option (list string)) :
  (exists l, (Zod.array_nonempty msg p i).1 = Zod.OK l)
  \/ (Zod.array_nonempty msg p i).2 <> [].
Proof.
  unfold Zod.array_nonempty. destruct i as [l|]; [|by right].
  case_match; [by right|]. left. by eexists.
Qed.

(** A schema that does not yield a value yields at least one issue. *)
Lemma voyageSchema_sound (fv : Schema.FieldValues) :
  (exists d, (Schema.voyageSchema fv).1 = Zod.OK d)
  \/ (Schema.voyageSchema fv).2 <> [].
Proof.
  unfold Schema.voyageSchema, Zod.refine.
  assert (Ho : (exists d, (Schema.voyageObject fv).1 = Zod.OK d)
               \/ (Schema.voyageObject fv).2 <> []).
  { unfold Schema.voyageObject.
    repeat apply field_sound;
      auto using string_min_sound, array_nonempty_sound.
    left. by eexists. }
  destruct (Schema.voyageObject fv).1 as [v|v|] eqn:E.
  - destruct (Schema.arrivalAfterDeparture v).
    + left. by exists v.
    + right. simpl. intros [_ ?]%app_eq_nil. done.
  - destruct (Schema.arrivalAfterDeparture v).
    + destruct Ho as [[d Hd]|Ho]; [congruence|by right].
    + right. simpl. intros [_ ?]%app_eq_nil. done.
  - destruct Ho as [[d Hd]|Ho]; [congruence|by right].
Qed.

Lemma zodResolver_invalid (fv : Schema.FieldValues) :
  Schema.values (Schema.zodResolver fv) = None ->
  Schema.errors (Schema.zodResolver fv) <> ∅.
Proof.
  unfold Schema.zodResolver, Schema.safeParse, Zod.handleResult.
  destruct (voyageSchema_sound fv) as [[d ->]|Hi]; [discriminate|].
  destruct (Schema.voyageSchema fv).1; [discriminate| |]; intros _; simpl;
    (destruct (Schema.voyageSchema fv).2; [done|apply parseErrorSchema_nonempty]).
Qed.

(** X12. A draft that does not validate is never sent: the submission
    ends after the resolver, with no request and no callback for any
    endpoint, at least one field error set, and the field values and the
    selection as before. *)
Theorem invalid_draft_not_sent (st : State) :
  Schema.values (Schema.zodResolver (formValues st)) = None ->
  handleSubmit fetch st =
    (setErrors (Schema.errors (Schema.zodResolver (formValues st))) st,
     [Validate (formValues st)], None)
  /\ fetchCalls (handleSubmit fetch st).1.2 = 0%nat
  /\ callbackCalls (handleSubmit fetch st).1.2 = 0%nat
  /\ errors (handleSubmit fetch st).1.1 <> ∅
  /\ formValues (handleSubmit fetch st).1.1 = formValues st
  /\ selectedUnitTypes (handleSubmit fetch st).1.1 = selectedUnitTypes st
  /\ selectedVessel (handleSubmit fetch st).1.1 = selectedVessel st.
Proof.
  intros Hinv. pose proof (zodResolver_invalid _ Hinv) as Hne.
  assert (E : handleSubmit fetch st =
    (setErrors (Schema.errors (Schema.zodResolver (formValues st))) st,
     [Validate (formValues st)], None)).
  { unfold handleSubmit. by rewrite Hinv. }
  rewrite E. by split_and!.
Qed.

Lemma createVoyageMutation_last (data : Schema.VoyageFormData) :
  exists last,
    createVoyageMutation fetch data = [Fetch (createRequest data); last]
    /\ (last = OnSuccess \/ exists e, last = ConsoleError "Error creating voyage:" e).
Proof.
  unfold createVoyageMutation, mutationFn.
  destruct (fetch (createRequest data)) as [r|]; simpl;
    [destruct (ok r); simpl; [destruct (json r)|]|]; simpl; eauto.
Qed.

(** X13. A submission never throws: the resolver lets through only
    dates that parse, so [toISOString] cannot fail there.  Called with a
    date that does not parse, [onSubmit] itself throws a RangeError
    before any request is sent. *)
Theorem submission_never_throws (st : State) (data : Schema.VoyageFormData) :
  Date_new (Schema.departure data) = None
  \/ Date_new (Schema.arrival data) = None ->
  onSubmit fetch st data = ([], Some RangeError)
  /\ forall st', (handleSubmit fetch st').2 = None.
Proof.
  intros Hbad. split.
  - unfold onSubmit, toISOString. destruct Hbad as [-> | ->]; [done|].
    by destruct (Date_new (Schema.departure data)).
  - intros st'.
    destruct (Schema.values (Schema.zodResolver (formValues st'))) as [d|] eqn:E.
    + by destruct (handleSubmit_valid fetch st' d E) as (ta & td & _ & _ & ->).
    + unfold handleSubmit. by rewrite E.
Qed.

(** X14. A valid submission sends exactly one request and ends in
    exactly one of two ways: the success callback, or one line on the
    error console; this covers a rejected request and a body that does
    not parse as well as a failure status. *)
Theorem one_request_one_outcome (st : State) (data : Schema.VoyageFormData) :
  Schema.values (Schema.zodResolver (formValues st)) = Some data ->
  fetchCalls (handleSubmit fetch st).1.2 = 1%nat
  /\ (callbackCalls (handleSubmit fetch st).1.2
      + errorLogs (handleSubmit fetch st).1.2 = 1)%nat.
Proof.
  intros E. destruct (handleSubmit_valid fetch st data E) as (ta & td & _ & _ & ->).
  match goal with |- context [createVoyageMutation fetch ?b] =>
    destruct (createVoyageMutation_last b) as (last & -> & [->|[e ->]]) end;
    by vm_compute.
Qed.

End WithEndpoint.

End FormSessionFacts.

Section FormSessionWitnesses.
Import Js CreateVoyageForm FormSession.

Lemma fillAndSubmit_canRaise : Forall (canRaise oneVessel) fillAndSubmit.
Proof.
  repeat apply Forall_cons_2; try exact I; [|apply Forall_nil_2].
  apply list_elem_of_further, list_elem_of_here.
Qed.

Lemma session_state_witness :
  paired (session (always createdResponse) oneVessel fillAndSubmit)
  /\ mirrored (session (always createdResponse) oneVessel fillAndSubmit).
Proof.
  destruct (session_state (always createdResponse) oneVessel fillAndSubmit
              fillAndSubmit_canRaise) as (H1 & H2 & _).
  split; [exact H1 | exact H2].
Defined.

Lemma session_submit_errors_witness :
  errors (handleSubmit (always createdResponse)
            (session (always createdResponse) oneVessel fillAndSubmit)).1.1
    !! "portOfDischarge" = None.
Proof.
  destruct (session_submit_errors (always createdResponse) oneVessel fillAndSubmit
              fillAndSubmit_canRaise) as (_ & H2 & _).
  exact H2.
Defined.


Lemma invalid_draft_not_sent_witness :
  fetchCalls (handleSubmit (always createdResponse) (mount oneVessel)).1.2 = 0%nat.
Proof.
  destruct (invalid_draft_not_sent (always createdResponse) (mount oneVessel))
    as (_ & H2 & _); [vm_compute; reflexivity|].
  exact H2.
Defined.

Lemma submission_never_throws_witness :
  let data : Schema.VoyageFormData :=
    {| Schema.departure := "tomorrow";
       Schema.arrival := "2025-01-02T10:00";
       Schema.portOfLoading := "Oslo";
       Schema.portOfDischarge := "Copenhagen";
       Schema.vessel := "v1";
       Schema.unitTypes := ["u1"] |} in
  onSubmit (always createdResponse) filledForm data = ([], Some RangeError).
Proof.
  intros data.
  destruct (submission_never_throws (always createdResponse) filledForm data)
    as [H1 _]; [left; vm_compute; reflexivity|].
  exact H1.
Defined.

Lemma one_request_one_outcome_witness :
  fetchCalls (handleSubmit (fun _ => None) filledForm).1.2 = 1%nat.
Proof.
  destruct (one_request_one_outcome (fun _ => None) filledForm filledData)
    as [H1 _]; [vm_compute; reflexivity|].
  exact H1.
Defined.

End FormSessionWitnesses.

(** ** The endpoint on every request *)

Section HandlerEdgeFacts.
Import Js CreateApi.
Context `{Prisma}.

(** X15. The store changes only through one call of
    [prisma.voyage.create]: a run of the handler that leaves another
    store behind was a POST whose [unitTypes] is an array, and the store
    is the one that this call answered for the fields of the body. *)
Theorem handler_engages_store (req : NextApiRequest) (d : Db) :
  db (handler req d) <> d ->
  method req = "POST"
  /\ exists ids, getProp (body req) "unitTypes" = JArray ids
     /\ db (handler req d) = (voyage_create (createInput (body req) ids) d).2.
Proof.
  unfold handler.
  destruct (String.eqb_spec (method req) "POST") as [Em|Nm]; [|done].
  intros Hd. split; [done|].
  destruct (body req) as [| |b|n|s|l|fields] eqn:Eb; try done;
    unfold create in *; simpl in *; try done.
  destruct (getField fields "unitTypes") as [| |b|n|s|ids|fs] eqn:Eu; try done.
  exists ids. split; [done|].
  by destruct (voyage_create (createInput (JObject fields) ids) d) as [[e|v] d'].
Qed.

Lemma handler_uncaught (req : NextApiRequest) (d : Db) :
  uncaught (handler req d) =
    match body req with
    | JNull | JUndefined =>
        if String.eqb (method req) "POST" then Some TypeError else None
    | _ => None
    end.
Proof.
  unfold handler. destruct (String.eqb (method req) "POST").
  - destruct (body req); try done;
      match goal with |- context [create ?b d] =>
        by destruct (create b d) as [[e|v] d'] end.
  - by destruct (body req).
Qed.

(** X16. The handler answers every request except a POST whose body is
    [null] or [undefined]: on that one it throws a TypeError before
    answering, leaving the store and the console as they were; on every
    other request nothing leaves the handler uncaught, in particular no
    rejection of the store, and the answer carries a payload and one of
    the statuses 201, 405 and 500. *)
Theorem handler_answers (req : NextApiRequest) (d : Db) :
  (uncaught (handler req d) = Some TypeError <->
     method req = "POST" /\ (body req = JNull \/ body req = JUndefined))
  /\ (uncaught (handler req d) = Some TypeError ->
      sent (response (handler req d)) = None
      /\ db (handler req d) = d /\ console (handler req d) = [])
  /\ (uncaught (handler req d) = None ->
      is_Some (sent (response (handler req d)))
      /\ (statusCode (response (handler req d)) = 201
          \/ statusCode (response (handler req d)) = 405
          \/ statusCode (response (handler req d)) = 500))
  /\ (method req <> "POST" \/ (body req <> JNull /\ body req <> JUndefined) ->
      uncaught (handler req d) = None)
  /\ (uncaught (handler req d) = None
      \/ uncaught (handler req d) = Some TypeError)
  /\ (forall e, uncaught (handler req d) <> Some (Rejected e)).
Proof.
  assert (Hfirst :
    (uncaught (handler req d) = Some TypeError <->
       method req = "POST" /\ (body req = JNull \/ body req = JUndefined))
    /\ (uncaught (handler req d) = Some TypeError ->
        sent (response (handler req d)) = None
        /\ db (handler req d) = d /\ console (handler req d) = [])
    /\ (uncaught (handler req d) = None ->
        is_Some (sent (response (handler req d)))
        /\ (statusCode (response (handler req d)) = 201
            \/ statusCode (response (handler req d)) = 405
            \/ statusCode (response (handler req d)) = 500))).
  { unfold handler.
    destruct (String.eqb_spec (method req) "POST") as [Em|Nm].
    - destruct (body req) as [| |b|n|s|l|fields] eqn:Eb;
        try (destruct (create _ d) as [[e|v] d']); simpl;
        (split_and!; [split; [try done; by intros _; auto
                             |try done; by intros [_ [?|?]]]
                     |try done |try done; intros _; split; eauto]).
    - simpl. split_and!; [split; [done|by intros [? _]]|done|]. intros _. eauto. }
  destruct Hfirst as (H1 & H2 & H3). split_and!; try done.
  - rewrite handler_uncaught. intros [Nm|[N1 N2]].
    + destruct (String.eqb_spec (method req) "POST"); [done|].
      by destruct (body req).
    + by destruct (body req).
  - rewrite handler_uncaught.
    destruct (body req), (String.eqb (method req) "POST"); auto.
  - intros e. rewrite handler_uncaught.
    by destruct (body req), (String.eqb (method req) "POST").
Qed.

End HandlerEdgeFacts.

Section HandlerEdgeWitnesses.
Import Js CreateApi MemoryDb.

Lemma handler_engages_store_witness :
  let store := {| vessels := ["v1"]; unitTypes := ["u1"]; voyages := [] |} in
  let b := JObject [("vessel", JString "v1"); ("unitTypes", JArray [])] in
  length (voyages (db (handler (H := prisma) {| method := "POST"; body := b |} store)))
    = 1%nat.
Proof.
  intros store b.
  destruct (handler_engages_store (H := prisma) {| method := "POST"; body := b |} store)
    as (_ & ids & Hids & ->).
  - vm_compute. discriminate.
  - vm_compute in Hids. injection Hids as <-. vm_compute. reflexivity.
Defined.

Lemma handler_answers_witness :
  let store := {| vessels := ["v1"]; unitTypes := ["u1"]; voyages := [] |} in
  let rejected := JObject [("vessel", JString "v9"); ("unitTypes", JArray [])] in
  uncaught (handler (H := prisma) {| method := "POST"; body := JNull |} store)
    = Some TypeError
  /\ statusCode (response (handler (H := prisma)
                             {| method := "POST"; body := JString "text" |} store))
     = 500
  /\ uncaught (handler (H := prisma) {| method := "POST"; body := rejected |} store)
     = None.
Proof.
  intros store rejected.
  destruct (handler_answers (H := prisma) {| method := "POST"; body := JNull |} store)
    as ([_ H1] & _ & _).
  destruct (handler_answers (H := prisma)
              {| method := "POST"; body := JString "text" |} store)
    as (_ & _ & H3 & _).
  destruct (handler_answers (H := prisma)
              {| method := "POST"; body := rejected |} store)
    as (_ & _ & _ & H4 & _).
  split_and!.
  - apply H1. split; [reflexivity | left; reflexivity].
  - destruct (H3 eq_refl) as [_ [E|[E|E]]]; [vm_compute in E; discriminate..|exact E].
  - apply H4. right. split; discriminate.
Defined.

End HandlerEdgeWitnesses.

(** ** The form and the endpoint together *)

Section EndToEndFacts.
Import Js CreateVoyageForm EndToEnd.
Context `{JsDate} `{CreateApi.Prisma}.
Variable voyageJson : CreateApi.Voyage -> JsValue.
Variable reasonPhrase : Z -> string.

Lemma serve_createRequest (d : CreateApi.Db) (data : Schema.VoyageFormData) :
  serve d (createRequest data) =
    match CreateApi.voyage_create (storedInput data) d with
    | (inr createdVoyage, d') =>
        {| CreateApi.db := d'; CreateApi.console := [];
           CreateApi.response :=
             {| CreateApi.statusCode := 201; CreateApi.headers := ∅;
                CreateApi.sent := Some (CreateApi.JsonVoyage createdVoyage) |};
           CreateApi.uncaught := None |}
    | (inl e, d') =>
        {| CreateApi.db := d';
           CreateApi.console := [("Error creating voyage:", CreateApi.Rejected e)];
           CreateApi.response :=
             {| CreateApi.statusCode := 500; CreateApi.headers := ∅;
                CreateApi.sent :=
                  Some (CreateApi.JsonValue
                          (JObject [("error", JString "Internal server error")])) |};
           CreateApi.uncaught := None |}
    end.
Proof.
  unfold serve.
  rewrite (handler_POST_object _ d
             [("departure", JString (Schema.departure data));
              ("arrival", JString (Schema.arrival data));
              ("portOfLoading", JString (Schema.portOfLoading data));
              ("portOfDischarge", JString (Schema.portOfDischarge data));
              ("vessel", JString (Schema.vessel data));
              ("unitTypes", JArray (JString <$> Schema.unitTypes data))]
             (JString <$> Schema.unitTypes data)) by reflexivity.
  replace (CreateApi.createInput _ _) with (storedInput data); [done|].
  unfold storedInput, CreateApi.createInput. simpl. f_equal.
  by rewrite <- list_fmap_compose.
Qed.

(** X17. The body that the form posts is one that the handler can
    read: for every data, the handler asks the store to create the
    record with exactly the posted strings, one [{id}] per unit type in
    the posted order, never fails on the shape of the body, and answers
    201 or 500 as the store decides. *)
Theorem posted_body_reaches_store (d : CreateApi.Db) (data : Schema.VoyageFormData) :
  CreateApi.db (serve d (createRequest data)) =
    (CreateApi.voyage_create (storedInput data) d).2
  /\ CreateApi.uncaught (serve d (createRequest data)) = None
  /\ (("Error creating voyage:", CreateApi.TypeError)
       ∉ CreateApi.console (serve d (createRequest data)))
  /\ CreateApi.statusCode (CreateApi.response (serve d (createRequest data))) =
       match (CreateApi.voyage_create (storedInput data) d).1 with
       | inr _ => 201
       | inl _ => 500
       end.
Proof.
  rewrite serve_createRequest.
  destruct (CreateApi.voyage_create (storedInput data) d) as [[e|v] d']; simpl;
    split_and!; try done.
  - intros Hin. apply list_elem_of_singleton in Hin. discriminate.
  - apply not_elem_of_nil.
Qed.

(** X18. Form and endpoint together: a valid submission against the
    endpoint invokes the success callback exactly when the store creates
    the record made of the normalised dates, the ports, the vessel and
    the unit types; when the store rejects it, the form logs the 500 and
    does not invoke the callback. *)
Theorem submission_end_to_end (d : CreateApi.Db) (st : State)
    (data : Schema.VoyageFormData) :
  Schema.values (Schema.zodResolver (formValues st)) = Some data ->
  exists (ta td : Z),
    Date_new (Schema.arrival data) = Some ta
    /\ Date_new (Schema.departure data) = Some td
    /\ let posted :=
         {| Schema.departure := isoOfTime td;
            Schema.arrival := isoOfTime ta;
            Schema.portOfLoading := Schema.portOfLoading data;
            Schema.portOfDischarge := Schema.portOfDischarge data;
            Schema.vessel := selectedVessel st;
            Schema.unitTypes := MultiSelect.value <$> selectedUnitTypes st |} in
       let trace := (handleSubmit (endpoint voyageJson reasonPhrase d) st).1.2 in
       match (CreateApi.voyage_create (storedInput posted) d).1 with
       | inr _ => callbackCalls trace = 1%nat /\ FormSession.errorLogs trace = 0%nat
       | inl _ =>
           callbackCalls trace = 0%nat
           /\ last trace = Some (ConsoleError "Error creating voyage:"
                                   (FailedToCreate 500 (reasonPhrase 500)))
       end.
Proof.
  intros E.
  destruct (handleSubmit_valid (endpoint voyageJson reasonPhrase d) st data E)
    as (ta & td & Ea & Ed & ->).
  exists ta, td. split_and!; [done..|]. simpl.
  unfold createVoyageMutation, mutationFn, endpoint, wireResponse.
  rewrite serve_createRequest.
  destruct (CreateApi.voyage_create _ d) as [[e|v] d']; simpl; by split.
Qed.

End EndToEndFacts.

Section EndToEndWitnesses.
Import Js CreateVoyageForm EndToEnd MemoryDb.

Lemma submission_end_to_end_witness :
  let store := {| vessels := ["v1"]; unitTypes := ["u1"]; voyages := [] |} in
  let voyageJson (r : Row) := JObject [("id", JNumber (Z.of_nat (id r)))] in
  let reasonPhrase (c : Z) := "" in
  callbackCalls
    (handleSubmit (endpoint (H := prisma) voyageJson reasonPhrase store) filledForm).1.2
    = 1%nat.
Proof.
  intros store voyageJson reasonPhrase.
  destruct (submission_end_to_end (H0 := prisma) voyageJson reasonPhrase store
              filledForm filledData) as (ta & td & Ea & Ed & Hm);
    [vm_compute; reflexivity|].
  assert (ta = 1735812000000%Z) as -> by (vm_compute in Ea; congruence).
  assert (td = 1735725600000%Z) as -> by (vm_compute in Ed; congruence).
  exact (proj1 Hm).
Defined.

End EndToEndWitnesses.

(** ** The page of voyages *)

Section HomeFacts.
Import CreateVoyageForm.

Lemma afterSubmission_calls (trace : list Event) (st : Home.State) :
  Home.afterSubmission trace st =
    Nat.iter (callbackCalls trace) Home.handleCreateSuccess st.
Proof.
  unfold Home.afterSubmission, callbackCalls. revert st.
  induction trace as [|e trace IH]; intros st; [done|]. simpl.
  destruct (isOnSuccess e); simpl; rewrite IH; [|done].
  generalize (length (List.filter isOnSuccess trace)). intros n.
  induction n as [|n IHn]; [done|]. simpl. by rewrite IHn.
Qed.

Section WithEndpoint.
Context `{Js.JsDate}.
Variable fetch : Request -> option Response.

Lemma callbackCalls_le_1 (st : State) :
  (callbackCalls (handleSubmit fetch st).1.2 <= 1)%nat.
Proof.
  destruct (Schema.values (Schema.zodResolver (formValues st))) as [d|] eqn:E.
  - destruct (handleSubmit_valid fetch st d E) as (ta & td & _ & _ & ->).
    match goal with |- context [createVoyageMutation fetch ?b] =>
      destruct (createVoyageMutation_last fetch b) as (last & -> & [->|[e ->]]) end;
      vm_compute; lia.
  - unfold handleSubmit. rewrite E. vm_compute. lia.
Qed.

(** X19. What a submission of the form does to the page: when the
    success callback is invoked the sheet is closed, one toast
    "Voyage created successfully!" is added and the query ["voyages"] is
    invalidated once; in every other case (a draft that does not
    validate, a failure status, a rejected request, a body that does not
    parse) the page stays as it is, with the sheet as it was and no
    toast. *)
Theorem submission_at_home (st : State) (home : Home.State) :
  let home' := Home.afterSubmission (handleSubmit fetch st).1.2 home in
  (callbackCalls (handleSubmit fetch st).1.2 = 0%nat /\ home' = home)
  \/ (callbackCalls (handleSubmit fetch st).1.2 = 1%nat
      /\ Home.isSheetOpen home' = false
      /\ Home.toasts home' =
           Home.toasts home ++
           [ {| Home.title := "Voyage created successfully!";
                Home.description := "The new voyage has been added to the list.";
                Home.variant := None |} ]
      /\ Home.invalidated home' = Home.invalidated home ++ [["voyages"]]).
Proof.
  intros home'. subst home'. rewrite afterSubmission_calls.
  pose proof (callbackCalls_le_1 st) as Hle.
  destruct (callbackCalls (handleSubmit fetch st).1.2) as [|[|n]]; [by left| |lia].
  right. by split_and!.
Qed.

End WithEndpoint.

(** X20. A delete asks the delete endpoint with the identifier in the
    query string and then does exactly one of two things: on an ok
    response it invalidates the query ["voyages"] and shows no toast;
    otherwise it shows one destructive toast "Failed to delete voyage"
    and invalidates nothing.  The sheet is not touched. *)
Theorem delete_outcome (fetch : string -> string -> string + bool)
    (voyageId : string) (home : Home.State) :
  let home' := Home.handleDelete fetch voyageId home in
  Home.isSheetOpen home' = Home.isSheetOpen home
  /\ (fetch ("/api/voyage/delete?id=" +:+ voyageId) "DELETE" = inr true ->
      Home.invalidated home' = Home.invalidated home ++ [["voyages"]]
      /\ Home.toasts home' = Home.toasts home)
  /\ (fetch ("/api/voyage/delete?id=" +:+ voyageId) "DELETE" <> inr true ->
      Home.invalidated home' = Home.invalidated home
      /\ exists message,
           Home.toasts home' =
             Home.toasts home ++
             [ {| Home.title := "Failed to delete voyage";
                  Home.description := message;
                  Home.variant := Some "destructive" |} ]
           /\ (fetch ("/api/voyage/delete?id=" +:+ voyageId) "DELETE" = inr false ->
               message = "Failed to delete the voyage")).
Proof.
  intros home'. subst home'. unfold Home.handleDelete.
  destruct (fetch _ "DELETE") as [m|[|]]; simpl; split_and!; try done.
  - intros _. split; [done|]. by exists m.
  - intros _. split; [done|]. by eexists.
Qed.

End HomeFacts.

(** ** The two versions of the mutation *)

Section EarlierFormFacts.
Import Js.
Variable JSON_parse : string -> string + JsValue.
Variable fetch : CreateVoyageForm.Request -> option EarlierForm.Response.

(** X21. The earlier version of the mutation, which reads the text of
    the response and parses it itself, and the later one, which calls
    [response.json()], send one request each and invoke the success
    callback in exactly the same cases. *)
Theorem mutation_versions_agree (data : Schema.VoyageFormData) :
  let later :=
    CreateVoyageForm.createVoyageMutation
      (fun req => EarlierForm.asJson JSON_parse <$> fetch req) data in
  let earlier := EarlierForm.createVoyageMutation JSON_parse fetch data in
  EarlierForm.callbackCalls earlier = CreateVoyageForm.callbackCalls later
  /\ EarlierForm.fetchCalls earlier = 1%nat
  /\ FormSession.fetchCalls later = 1%nat.
Proof.
  intros later earlier. subst later earlier.
  unfold EarlierForm.createVoyageMutation, EarlierForm.mutationFn,
    CreateVoyageForm.createVoyageMutation, CreateVoyageForm.mutationFn.
  destruct (fetch _) as [r|]; simpl; [|done].
  unfold EarlierForm.asJson, CreateVoyageForm.ok, EarlierForm.ok. simpl.
  destruct (EarlierForm.text r) as [t|]; simpl;
    destruct ((200 <=? EarlierForm.status r)%Z && (EarlierForm.status r <=? 299)%Z);
    simpl; try done.
  by destruct (JSON_parse t).
Qed.

End EarlierFormFacts.

Section HomeWitnesses.

Lemma delete_outcome_witness :
  let home := {| Home.isSheetOpen := false; Home.toasts := [];
                 Home.invalidated := []; Home.console := [] |} in
  Home.invalidated (Home.handleDelete (fun _ _ => inr true) "voyage-1" home)
    = [["voyages"]]
  /\ Home.invalidated (Home.handleDelete (fun _ _ => inr false) "voyage-1" home) = [].
Proof.
  intros home.
  destruct (delete_outcome (fun _ _ => inr true) "voyage-1" home) as (_ & H1 & _).
  destruct (delete_outcome (fun _ _ => inr false) "voyage-1" home) as (_ & _ & H2).
  split.
  - destruct H1 as [H1 _]; [reflexivity | exact H1].
  - destruct H2 as [H2 _]; [discriminate | exact H2].
Defined.

End HomeWitnesses.

(** ** The schema on field values that are not set *)

Section UnsetFieldFacts.
Import Js Zod Schema.
Context `{JsDate}.

Lemma field_INVALID {A B : Type} (acc : Parse (A -> B)) (r : Parse A) :
  acc.1 = INVALID \/ r.1 = INVALID -> (field acc r).1 = INVALID.
Proof.
  unfold field. simpl. intros [-> | ->]; [done|]. by destruct acc.1.
Qed.

Lemma field_Forall {A B : Type} (P : ZodIssue -> Prop)
    (acc : Parse (A -> B)) (r : Parse A) :
  Forall P acc.2 -> Forall P r.2 -> Forall P (field acc r).2.
Proof. intros. unfold field. simpl. by apply Forall_app. Qed.

Lemma string_min_Forall (P : ZodIssue -> Prop) n msg p (i : option string) :
  P {| code := "invalid_type"; path := p; Zod.message := "Required" |} ->
  P {| code := "too_small"; path := p; Zod.message := msg |} ->
  Forall P (string_min n msg p i).2.
Proof.
  intros H1 H2. unfold string_min. destruct i as [s|]; [case_match|];
    simpl; repeat constructor; done.
Qed.

Lemma array_nonempty_Forall (P : ZodIssue -> Prop) msg p (i : option (list string)) :
  P {| code := "invalid_type"; path := p; Zod.message := "Required" |} ->
  P {| code := "too_small"; path := p; Zod.message := msg |} ->
  Forall P (array_nonempty msg p i).2.
Proof.
  intros H1 H2. unfold array_nonempty. destruct i as [s|]; [case_match|];
    simpl; repeat constructor; done.
Qed.

Lemma voyageObject_Forall (P : ZodIssue -> Prop) (fv : FieldValues) :
  (forall c name msg, name ∈ fieldNames -> c <> "custom" ->
     P {| code := c; path := [name]; Zod.message := msg |}) ->
  Forall P (voyageObject fv).2.
Proof.
  intros HP. unfold voyageObject.
  repeat apply field_Forall; [constructor|..];
    (apply string_min_Forall || apply array_nonempty_Forall);
    apply HP; (try discriminate); unfold fieldNames;
    repeat (first [apply list_elem_of_here | apply list_elem_of_further]).
Qed.

Lemma find_some_elem (k : string) (issues : list ZodIssue) (i : ZodIssue) :
  List.find (filedUnder k) issues = Some i ->
  i ∈ issues /\ String.concat "." (path i) = k.
Proof.
  intros Hf. apply find_some in Hf as [Hin Hk].
  split; [by apply list_elem_of_In|]. by apply String.eqb_eq.
Qed.

Lemma voyageObject_issues (fv : FieldValues) :
  (voyageObject fv).2 =
    (string_min 1 "Departure is required" ["departure"] (departure fv)).2
    ++ (string_min 1 "Arrival is required" ["arrival"] (arrival fv)).2
    ++ (string_min 1 "Port of loading is required" ["portOfLoading"]
          (portOfLoading fv)).2
    ++ (string_min 1 "Port of discharge is required" ["portOfDischarge"]
          (portOfDischarge fv)).2
    ++ (string_min 1 "Vessel is required" ["vessel"] (vessel fv)).2
    ++ (array_nonempty "At least one unit type is required" ["unitTypes"]
          (unitTypes fv)).2
    ++ [].
Proof.
  unfold voyageObject, field. simpl. by rewrite app_nil_r, <- !app_assoc.
Qed.

Lemma find_string_min_ne n msg name (i : option string) k rest :
  name <> k ->
  List.find (filedUnder k) ((string_min n msg [name] i).2 ++ rest) =
  List.find (filedUnder k) rest.
Proof.
  intros N. unfold string_min. destruct i as [s|]; [case_match|]; simpl;
    try done; unfold filedUnder at 1; simpl;
    by destruct (String.eqb_spec name k).
Qed.

Lemma find_string_min_unset n msg name rest :
  List.find (filedUnder name) ((string_min n msg [name] None).2 ++ rest) =
  Some {| code := "invalid_type"; path := [name]; Zod.message := "Required" |}.
Proof. simpl. unfold filedUnder at 1. simpl. by rewrite String.eqb_refl. Qed.

Lemma find_array_nonempty_unset msg name rest :
  List.find (filedUnder name) ((array_nonempty msg [name] None).2 ++ rest) =
  Some {| code := "invalid_type"; path := [name]; Zod.message := "Required" |}.
Proof. simpl. unfold filedUnder at 1. simpl. by rewrite String.eqb_refl. Qed.

(** X22. When a field has no value at all, validation fails, each of
    the six fields that has no value carries the issue "Required" and
    has it as its error, and the ordering of the two dates is not
    checked: no issue of the refinement is reported, whatever the dates. *)
Theorem unset_field_skips_ordering (fv : FieldValues) :
  departure fv = None \/ arrival fv = None \/ portOfLoading fv = None
  \/ portOfDischarge fv = None \/ vessel fv = None \/ unitTypes fv = None ->
  exists issues,
    safeParse fv = failure issues
    /\ values (zodResolver fv) = None
    /\ Forall (fun i => code i <> "custom") issues
    /\ (forall e, errors (zodResolver fv) !! "arrival" = Some e -> type e <> "custom")
    /\ let required (unset : Prop) (name : string) :=
         unset ->
         {| code := "invalid_type"; path := [name]; Zod.message := "Required" |}
           ∈ issues
         /\ errors (zodResolver fv) !! name =
              Some {| type := "invalid_type"; message := "Required" |} in
       required (departure fv = None) "departure"
       /\ required (arrival fv = None) "arrival"
       /\ required (portOfLoading fv = None) "portOfLoading"
       /\ required (portOfDischarge fv = None) "portOfDischarge"
       /\ required (vessel fv = None) "vessel"
       /\ required (unitTypes fv = None) "unitTypes".
Proof.
  intros Hunset.
  assert (Hinv : (voyageObject fv).1 = INVALID).
  { unfold voyageObject.
    destruct Hunset as [E|[E|[E|[E|[E|E]]]]]; rewrite E;
      repeat first [ apply field_INVALID; right; reflexivity
                   | apply field_INVALID; left ]. }
  assert (Hs : voyageSchema fv = voyageObject fv).
  { unfold voyageSchema, refine. by rewrite Hinv. }
  assert (Hcodes : Forall (fun i => code i <> "custom") (voyageObject fv).2).
  { apply voyageObject_Forall. by intros c name msg _ Hc. }
  exists (voyageObject fv).2.
  assert (Hsafe : safeParse fv = failure (voyageObject fv).2).
  { unfold safeParse, handleResult. by rewrite Hs, Hinv. }
  assert (Hlookup : forall k, errors (zodResolver fv) !! k =
            fieldError <$> List.find (filedUnder k) (voyageObject fv).2).
  { intros k. unfold zodResolver. rewrite Hsafe. simpl.
    by rewrite parseErrorSchema_lookup, lookup_empty. }
  assert (Hfound : forall name i,
            List.find (filedUnder name) (voyageObject fv).2 = Some i ->
            i ∈ (voyageObject fv).2
            /\ errors (zodResolver fv) !! name = Some (fieldError i)).
  { intros name i Hf. split; [by apply find_some_elem in Hf as [? _]|].
    by rewrite Hlookup, Hf. }
  split_and!; try done.
  - unfold zodResolver. by rewrite Hsafe.
  - intros e. rewrite Hlookup.
    destruct (List.find _ _) as [i|] eqn:Ef; [|done]. intros [= <-].
    apply find_some_elem in Ef as [Hin _].
    by apply (proj1 (Forall_forall _ _) Hcodes).
  - cbv zeta. split_and!; intros E; apply Hfound;
      rewrite voyageObject_issues, E;
      rewrite ?find_string_min_ne by discriminate;
      first [apply find_string_min_unset | apply find_array_nonempty_unset].
Qed.

(** X23. Whatever the field values, set or not, the resolver reports
    errors under the six field names only: there is never a form-level
    error or an error under another key. *)
Theorem errors_only_on_fields (fv : FieldValues) (k : string) :
  is_Some (errors (zodResolver fv) !! k) -> k ∈ fieldNames.
Proof.
  assert (HP : Forall (fun i => exists name, path i = [name] /\ name ∈ fieldNames)
                      (voyageSchema fv).2).
  { assert (Ho : Forall (fun i => exists name, path i = [name] /\ name ∈ fieldNames)
                        (voyageObject fv).2).
    { apply voyageObject_Forall. intros c name msg Hn _. by exists name. }
    unfold voyageSchema, refine.
    destruct (voyageObject fv).1; try done;
      (case_match; [done|]); simpl; apply Forall_app; split; try done;
      repeat constructor; exists "arrival"; (split; [done|]);
      apply list_elem_of_further, list_elem_of_here. }
  unfold zodResolver, safeParse, handleResult.
  destruct (voyageSchema fv).1; simpl.
  - rewrite lookup_empty. by intros [? ?].
  - rewrite parseErrorSchema_lookup, lookup_empty.
    destruct (List.find _ _) as [i|] eqn:Ef; [|by intros [? ?]]. intros _.
    apply find_some_elem in Ef as [Hin <-].
    destruct (proj1 (Forall_forall _ _) HP i Hin) as (name & -> & Hn).
    simpl. done.
  - rewrite parseErrorSchema_lookup, lookup_empty.
    destruct (List.find _ _) as [i|] eqn:Ef; [|by intros [? ?]]. intros _.
    apply find_some_elem in Ef as [Hin <-].
    destruct (proj1 (Forall_forall _ _) HP i Hin) as (name & -> & Hn).
    simpl. done.
Qed.

End UnsetFieldFacts.

Section UnsetFieldWitnesses.
Import Js Zod Schema.

Lemma unset_field_skips_ordering_witness :
  let fv : FieldValues :=
    {| departure := Some "2025-01-02T10:00";
       arrival := Some "2025-01-01T10:00";
       portOfLoading := None;
       portOfDischarge := Some "Oslo";
       vessel := Some "v1";
       unitTypes := Some ["u1"] |} in
  values (zodResolver fv) = None
  /\ errors (zodResolver fv) !! "portOfLoading" =
       Some {| type := "invalid_type"; message := "Required" |}.
Proof.
  intros fv.
  destruct (unset_field_skips_ordering fv)
    as (issues & _ & H2 & _ & _ & _ & _ & H7 & _).
  - right. right. left. reflexivity.
  - split; [exact H2|]. by destruct (H7 eq_refl) as [_ H8].
Defined.

Lemma errors_only_on_fields_witness :
  let fv : FieldValues :=
    {| departure := Some ""; arrival := None; portOfLoading := None;
       portOfDischarge := Some "Oslo"; vessel := Some "v1";
       unitTypes := Some [] |} in
  "departure" ∈ fieldNames.
Proof.
  intros fv. apply (errors_only_on_fields fv "departure").
  vm_compute. eexists. reflexivity.
Defined.

End UnsetFieldWitnesses.
